(** * QWX I/O expansion board driver (qwx_ioe_driver.c)

    A shallow embedding of the Linux driver for the QWXIOE expansion board:
    three digital outputs and two RFID readers behind one I2C client, each
    exposed as a misc character device.

    The file handlers ([output_read], [output_write], [reader_read]) and the
    life-cycle hooks ([probe], [remove]) are written as functions in a small
    monad that reads the history of kernel events and emits the new ones.
    What the kernel answers (bus transfers, misc registration) is an oracle
    over that history, so every statement holds for every deterministic
    kernel behaviour. *)

From Stdlib Require Import ZArith List String Ascii Bool Lia DecimalString.
From Stdlib Require Decimal DecimalFacts DecimalPos Nnat.
Import ListNotations.

Open Scope string_scope.
Open Scope list_scope.
Open Scope Z_scope.

(** ** C integer types *)

(** A byte of memory, as its unsigned value in [0, 256). *)
Definition byte := Z.

Module CInt.

(** Conversion to [unsigned short], [unsigned int] and [int]. *)
Definition to_ushort (z : Z) : Z := z mod 2 ^ 16.
Definition to_uint (z : Z) : Z := z mod 2 ^ 32.
Definition to_int (z : Z) : Z := (z + 2 ^ 31) mod 2 ^ 32 - 2 ^ 31.

(** The byte a [char] object holds after [z] is stored into it. *)
Definition store_char (z : Z) : byte := z mod 2 ^ 8.

(** The value of a plain [char] holding byte [b].  Whether plain [char] is
    signed is implementation-defined: before Linux 6.2 the kernel follows
    the architecture ABI (signed on x86 and MIPS, unsigned on ARM, RISC-V
    and PowerPC); from 6.2 on it is built with -funsigned-char. *)
Definition load_char (char_signed : bool) (b : byte) : Z :=
  if char_signed && (128 <=? b) then b - 256 else b.

(** [unsigned char], as in [struct qstr]'s [name]. *)
Definition load_uchar (b : byte) : Z := b.

(** [x << n] on [unsigned int]. *)
Definition shl_uint (x : Z) (n : Z) : Z := to_uint (Z.shiftl x n).

(** [x + y] on [unsigned int]. *)
Definition add_uint (x y : Z) : Z := to_uint (x + y).

(** Conversion of a [size_t] to [ssize_t], both [bits] wide: values from
    [2 ^ (bits - 1)] on come out negative. *)
Definition to_ssize_t (bits : Z) (z : Z) : Z :=
  (z + 2 ^ (bits - 1)) mod 2 ^ bits - 2 ^ (bits - 1).

End CInt.

(** ** Strings as the driver sees them *)

Definition byte_of_ascii (a : ascii) : byte := Z.of_N (N_of_ascii a).

Fixpoint bytes_of_string (s : string) : list byte :=
  match s with
  | EmptyString => []
  | String a s' => byte_of_ascii a :: bytes_of_string s'
  end.

(** [name[i]] of a NUL-terminated string: the terminator is read at and
    beyond its end. *)
Definition char_at (s : string) (i : nat) : byte :=
  match String.get i s with
  | Some a => byte_of_ascii a
  | None => 0
  end.

(** The text [%d] prints. *)
Definition decimal (z : Z) : string := NilZero.string_of_int (Z.to_int z).

(** [snprintf(dst, size, ...)] into a fresh string buffer: at most
    [size - 1] characters are kept. *)
Definition snprintf_string (size : nat) (text : string) : string :=
  String.substring 0 (size - 1) text.

(** [snprintf(dst, size, ...)] over an existing byte array: the kept
    characters, a NUL, and the old content after them. *)
Definition snprintf_bytes (dst : list byte) (size : nat) (text : string) : list byte :=
  let kept := firstn (size - 1) (bytes_of_string text) in
  match size with
  | O => dst
  | S _ => kept ++ [0] ++ skipn (S (List.length kept)) dst
  end.

(** [memset(dst, c, n)]. *)
Definition memset (dst : list byte) (c : byte) (n : nat) : list byte :=
  repeat c (Nat.min n (List.length dst)) ++ skipn n dst.

(** Overwrite the head of [dst] with [src] (a transfer into a buffer). *)
Definition overlay (src dst : list byte) : list byte :=
  firstn (List.length dst) src ++ skipn (List.length src) dst.

(** ** Constants *)

Definition OUTPUTS_COUNT : nat := 3.
Definition READERS_COUNT : nat := 2.

(** From <linux/mod_devicetable.h>. *)
Definition I2C_NAME_SIZE : nat := 20.

(** From <uapi/asm-generic/errno-base.h>. *)
Definition EFAULT : Z := 14.

(** ** Card number decoding *)

(** Line 191 of the driver:
    [card_number = ((uint)response[2] << 16) + ((uint)response[1] << 8) + response[0];]
    where [response] is an array of plain [char]. *)
Definition card_number (char_signed : bool) (response : list byte) : Z :=
  let r i := CInt.load_char char_signed (nth i response 0) in
  CInt.add_uint
    (CInt.add_uint (CInt.shl_uint (CInt.to_uint (r 2%nat)) 16)
                   (CInt.shl_uint (CInt.to_uint (r 1%nat)) 8))
    (r 0%nat).

(** The three little-endian bytes of an identifier, byte 0 least
    significant, as the board puts them on the bus. *)
Definition card_bytes (v : Z) : list byte :=
  [v mod 256; (v / 256) mod 256; (v / 65536) mod 256].

(** ** Kernel objects *)

(** A misc device of the board, named by the array slot that holds it:
    [&device->outputs[index]] or [&device->readers[index]]. *)
Inductive channel : Type :=
| Output (index : nat)
| Reader (index : nat).

Inductive file_operations : Type :=
| outputs_fops   (* .read = output_read, .write = output_write *)
| readers_fops.  (* .read = reader_read *)

Record i2c_client : Type := { addr : Z }.

(** [struct expansion_dev]; the two [miscdevice] arrays are the [channel]s. *)
Record expansion_dev : Type := { client : i2c_client; name : string }.

(** What a handler reads of its [struct file]: [f_path.dentry->d_name.name].
    [private_data] points at the misc device, whose container is the
    [expansion_dev] the handlers below receive. *)
Record file : Type := { d_name : string }.

(** A [__user] pointer: the bytes that can be read through it and how many
    bytes can be written through it before the access faults. *)
Record user_buffer : Type := { content : list byte; writable : nat }.

(** What the driver does to the rest of the kernel, with the answer it got. *)
Inductive event : Type :=
| i2c_send (to : Z) (data : list byte) (ret : Z)
| i2c_recv (from : Z) (count : nat) (ret : Z) (data : list byte)
| misc_reg (ch : channel) (devname : string) (fops : file_operations) (ret : Z)
| misc_dereg (ch : channel)
| printk_err (msg : string)
| user_copy (data : list byte).

(** The platform and the answers of the kernel, each a function of the
    history so far.  [bits_per_long] is the width of [long], [size_t] and
    [ssize_t]: 32 or 64.  A transfer or a registration fails when its return
    value is negative; a receive also tells which bytes reached the buffer. *)
Record kernel : Type := {
  char_signed : bool;
  bits_per_long : Z;
  send_result : list event -> Z -> list byte -> Z;
  recv_result : list event -> Z -> nat -> Z * list byte;
  register_result : list event -> channel -> string -> Z
}.

(** ** The monad of driver code *)

(** A computation reads the history and gives its result and the events it
    adds, oldest first. *)
Definition M (A : Type) : Type := list event -> A * list event.

Definition ret {A : Type} (a : A) : M A := fun _ => (a, []).

Definition bind {A B : Type} (m : M A) (f : A -> M B) : M B :=
  fun h =>
    let (a, e1) := m h in
    let (b, e2) := f a (h ++ e1) in
    (b, e1 ++ e2).

Definition emit (e : event) : M unit := fun _ => (tt, [e]).

Notation "x <- m ;; k" := (bind m (fun x => k))
  (at level 61, m at next level, right associativity).
Notation "m ;; k" := (bind m (fun _ => k))
  (at level 61, right associativity).

(** How a [for (i = from; i < bound; i++)] loop whose body may [return]
    ends: by that [return], or past its bound with the loop variable at
    [i]. *)
Inductive loop_exit (R : Type) : Type :=
| Returned (v : R)
| Finished (i : nat).
Arguments Returned {R} v.
Arguments Finished {R} i.

(** [n] iterations are left and the loop variable is [i]. *)
Fixpoint for_upto {R : Type} (n i : nat) (body : nat -> M (option R)) : M (loop_exit R) :=
  match n with
  | O => ret (Finished i)
  | S n' =>
      r <- body i ;;
      match r with
      | Some v => ret (Returned v)
      | None => for_upto n' (S i) body
      end
  end.

Definition for_loop {R : Type} (from bound : nat) (body : nat -> M (option R)) : M (loop_exit R) :=
  for_upto (bound - from) from body.

(** The same loop with a body that never returns. *)
Fixpoint for_each_upto (n i : nat) (body : nat -> M unit) : M unit :=
  match n with
  | O => ret tt
  | S n' => body i ;; for_each_upto n' (S i) body
  end.

Definition for_each (from bound : nat) (body : nat -> M unit) : M unit :=
  for_each_upto (bound - from) from body.

(** ** Kernel services the driver calls *)

Section Driver.

Variable K : kernel.

Definition i2c_master_send (c : i2c_client) (buf : list byte) : M Z :=
  fun h =>
    let r := send_result K h (addr c) buf in
    (r, [i2c_send (addr c) buf r]).

(** Gives the return value and the buffer after the call. *)
Definition i2c_master_recv (c : i2c_client) (buf : list byte) (count : nat) : M (Z * list byte) :=
  fun h =>
    let (r, data) := recv_result K h (addr c) count in
    ((r, overlay (firstn count data) buf), [i2c_recv (addr c) count r data]).

Definition misc_register (ch : channel) (devname : string) (fops : file_operations) : M Z :=
  fun h =>
    let r := register_result K h ch devname in
    (r, [misc_reg ch devname fops r]).

Definition misc_deregister (ch : channel) : M unit := emit (misc_dereg ch).

Definition pr_err (msg : string) : M unit := emit (printk_err msg).

(** Gives the number of bytes that could not be copied. *)
Definition copy_to_user (buffer : user_buffer) (data : list byte) (count : nat) : M Z :=
  let copied := firstn (Nat.min count (writable buffer)) data in
  fun _ => (Z.of_nat (count - List.length copied), [user_copy copied]).

(** [copy_from_user(&response, buffer, 1)]: the byte read, or [None] when
    the call returns nonzero. *)
Definition copy_from_user_1 (buffer : user_buffer) : option byte :=
  match content buffer with
  | [] => None
  | b :: _ => Some b
  end.

(** ** File handlers *)

(** The channel number the handlers take from the second character of the
    file name: [unsigned short int output = ...d_name.name[1] - '0';] *)
Definition channel_of_name (f : file) : Z :=
  CInt.to_ushort (CInt.load_uchar (char_at (d_name f) 1) - byte_of_ascii "0").

(** [output_read].  [response0] is what the uninitialised local
    [response] holds on entry.  The result is the returned [ssize_t] and
    the new [*f_pos]. *)
Definition output_read (device : expansion_dev) (f : file) (buffer : user_buffer)
    (count : Z) (f_pos : Z) (response0 : byte) : M (Z * Z) :=
  let output := channel_of_name f in
  let data := bytes_of_string "0" ++ [10; 0] in
  if f_pos =? 0 then
    let address := CInt.store_char (0x70 + output) in
    i2c_master_send (client device) [address] ;;
    rx <- i2c_master_recv (client device) [response0] 1 ;;
    let response := nth 0 (snd rx) 0 in
    let data0 := CInt.store_char (CInt.load_char (char_signed K) (nth 0 data 0)
                                  + CInt.load_char (char_signed K) response) in
    let data := data0 :: skipn 1 data in
    let count := 3 in
    failed <- copy_to_user buffer data 3 ;;
    if negb (failed =? 0) then ret (- EFAULT, f_pos)
    else ret (count, f_pos + count)
  else ret (0, f_pos).

(** [output_write]; it never touches [*f_pos].  [len] is a [size_t] and
    the value returned an [ssize_t]. *)
Definition output_write (device : expansion_dev) (f : file) (buffer : user_buffer)
    (len : Z) (f_pos : Z) : M Z :=
  let output := channel_of_name f in
  if len =? 0 then ret 0
  else
    match copy_from_user_1 buffer with
    | None => ret (- EFAULT)
    | Some response =>
        let data0 :=
          if CInt.load_char (char_signed K) response =? byte_of_ascii "1"
          then 0x71 else 0x70 in
        let data1 := CInt.store_char output in
        i2c_master_send (client device) [data0; data1] ;;
        ret (CInt.to_ssize_t (bits_per_long K) len)
    end.

(** [reader_read].  [response0] (8 bytes) and [data0] (12 bytes) are what
    the uninitialised arrays hold on entry. *)
Definition reader_read (device : expansion_dev) (f : file) (buffer : user_buffer)
    (count : Z) (f_pos : Z) (response0 data0 : list byte) : M (Z * Z) :=
  let reader := channel_of_name f in
  if f_pos =? 0 then
    let address := CInt.store_char (0x10 + 0x08 * reader) in
    i2c_master_send (client device) [address] ;;
    let data := memset data0 0 8 in
    rx <- i2c_master_recv (client device) response0 8 ;;
    let response := snd rx in
    let card := card_number (char_signed K) response in
    let data := snprintf_bytes data 12 (decimal (CInt.to_int card) ++ String "010" "")%string in
    let count := 12 in
    failed <- copy_to_user buffer data 12 ;;
    if negb (failed =? 0) then ret (- EFAULT, f_pos)
    else ret (count, f_pos + count)
  else ret (0, f_pos).

(** ** Registration *)

Definition add_output (device : expansion_dev) (output_number : nat) : M Z :=
  let devname :=
    snprintf_string I2C_NAME_SIZE
      (name device ++ "/s" ++ decimal (Z.of_nat output_number))%string in
  misc_register (Output output_number) devname outputs_fops.

Definition add_reader (device : expansion_dev) (reader_number : nat) : M Z :=
  let devname :=
    snprintf_string I2C_NAME_SIZE
      (name device ++ "/w" ++ decimal (Z.of_nat reader_number))%string in
  misc_register (Reader reader_number) devname readers_fops.

(** The body of the first loop of [probe]. *)
Definition probe_output (device : expansion_dev) (output : nat) : M (option Z) :=
  error <- add_output device output ;;
  if negb (error =? 0) then
    pr_err ("No se pudo registrar el dispositivo " ++ name device ++ "/s"
            ++ decimal (Z.of_nat output))%string ;;
    for_each 0 output (fun index => misc_deregister (Output index)) ;;
    ret (Some error)
  else ret None.

(** The body of the second loop of [probe]; [output] is the variable the
    first loop left behind, which the message prints. *)
Definition probe_reader (device : expansion_dev) (output : nat) (reader : nat) : M (option Z) :=
  error <- add_reader device reader ;;
  if negb (error =? 0) then
    pr_err ("No se pudo registrar el dispositivo " ++ name device ++ "/w"
            ++ decimal (Z.of_nat output))%string ;;
    for_each 0 reader (fun index => misc_deregister (Reader index)) ;;
    for_each 0 OUTPUTS_COUNT (fun output => misc_deregister (Output output)) ;;
    ret (Some error)
  else ret None.

(** [probe].  [error0] is what the uninitialised local [error] holds on
    entry.  The result is the returned [int] and the client data the call
    set, if it set any. *)
Definition probe (c : i2c_client) (error0 : Z) : M (Z * option expansion_dev) :=
  if addr c =? 0x50 then
    let device := {| client := c; name := snprintf_string I2C_NAME_SIZE "/exp0" |} in
    outs <- for_loop 0 OUTPUTS_COUNT (probe_output device) ;;
    match outs with
    | Returned error => ret (error, Some device)
    | Finished output =>
        rds <- for_loop 0 READERS_COUNT (probe_reader device output) ;;
        match rds with
        | Returned error => ret (error, Some device)
        | Finished _ => ret (0, Some device)
        end
    end
  else
    pr_err "No se reconoce la direccion del dispositivo" ;;
    ret (error0, None).

(** [remove]; [device] is the client data of the client. *)
Definition remove (device : expansion_dev) : M Z :=
  for_each 0 OUTPUTS_COUNT (fun output => misc_deregister (Output output)) ;;
  for_each 0 READERS_COUNT (fun reader => misc_deregister (Reader reader)) ;;
  ret 0.

End Driver.

(** ** Reading a trace *)

Definition channel_eqb (a b : channel) : bool :=
  match a, b with
  | Output i, Output j => Nat.eqb i j
  | Reader i, Reader j => Nat.eqb i j
  | _, _ => false
  end.

(** The payloads of the bus sends, oldest first. *)
Fixpoint sends (evs : list event) : list (list byte) :=
  match evs with
  | [] => []
  | i2c_send _ data _ :: evs' => data :: sends evs'
  | _ :: evs' => sends evs'
  end.

(** The sizes of the bus receives, oldest first. *)
Fixpoint receives (evs : list event) : list nat :=
  match evs with
  | [] => []
  | i2c_recv _ count _ _ :: evs' => count :: receives evs'
  | _ :: evs' => receives evs'
  end.

(** What was copied to user space, oldest first. *)
Fixpoint copies (evs : list event) : list (list byte) :=
  match evs with
  | [] => []
  | user_copy data :: evs' => data :: copies evs'
  | _ :: evs' => copies evs'
  end.

(** The registrations attempted, each with what [misc_register] returned. *)
Fixpoint registrations (evs : list event) : list (channel * Z) :=
  match evs with
  | [] => []
  | misc_reg ch _ _ r :: evs' => (ch, r) :: registrations evs'
  | _ :: evs' => registrations evs'
  end.

(** The channels handed to [misc_deregister], oldest first. *)
Fixpoint deregistrations (evs : list event) : list channel :=
  match evs with
  | [] => []
  | misc_dereg ch :: evs' => ch :: deregistrations evs'
  | _ :: evs' => deregistrations evs'
  end.

(** The channels registered once the events are played, in time order,
    over the channels registered before: a registration that returned 0
    adds its channel, a deregistration removes it. *)
Fixpoint registered_after (before : list channel) (evs : list event) : list channel :=
  match evs with
  | [] => before
  | misc_reg ch _ _ r :: evs' =>
      registered_after (if r =? 0 then before ++ [ch] else before) evs'
  | misc_dereg ch :: evs' =>
      registered_after (filter (fun c => negb (channel_eqb c ch)) before) evs'
  | _ :: evs' => registered_after before evs'
  end.

(** The events [probe] is expected to leave. *)

Definition output_devname (device : expansion_dev) (i : nat) : string :=
  snprintf_string I2C_NAME_SIZE (name device ++ "/s" ++ decimal (Z.of_nat i))%string.

Definition reader_devname (device : expansion_dev) (i : nat) : string :=
  snprintf_string I2C_NAME_SIZE (name device ++ "/w" ++ decimal (Z.of_nat i))%string.

Definition output_reg (device : expansion_dev) (e : Z) (i : nat) : event :=
  misc_reg (Output i) (output_devname device i) outputs_fops e.

Definition reader_reg (device : expansion_dev) (e : Z) (i : nat) : event :=
  misc_reg (Reader i) (reader_devname device i) readers_fops e.

Definition output_failed (device : expansion_dev) (i : nat) : event :=
  printk_err ("No se pudo registrar el dispositivo " ++ name device ++ "/s"
              ++ decimal (Z.of_nat i))%string.

Definition reader_failed (device : expansion_dev) (i : nat) : event :=
  printk_err ("No se pudo registrar el dispositivo " ++ name device ++ "/w"
              ++ decimal (Z.of_nat i))%string.

(** Registering output [k] returned [e]: outputs [0..k-1] are rolled back. *)
Definition output_rollback (device : expansion_dev) (base k : nat) (e : Z) : list event :=
  map (output_reg device 0) (seq base k)
  ++ output_reg device e (base + k) :: output_failed device (base + k)
  :: map (fun j => misc_dereg (Output j)) (seq 0 (base + k)).

(** Registering reader [k] returned [e] with [output] the value the first
    loop left: readers [0..k-1], then every output, are rolled back. *)
Definition reader_rollback (device : expansion_dev) (output base k : nat) (e : Z) : list event :=
  map (reader_reg device 0) (seq base k)
  ++ reader_reg device e (base + k) :: reader_failed device output
  :: map (fun j => misc_dereg (Reader j)) (seq 0 (base + k))
  ++ map (fun j => misc_dereg (Output j)) (seq 0 OUTPUTS_COUNT).

(** The device [probe] sets up for a client. *)
Definition board (c : i2c_client) : expansion_dev :=
  {| client := c; name := snprintf_string I2C_NAME_SIZE "/exp0" |}.

(** The file the VFS passes for the misc device of a channel: its dentry
    name is the last component of the device name. *)
Definition output_file (i : nat) : file :=
  {| d_name := ("s" ++ decimal (Z.of_nat i))%string |}.

Definition reader_file (j : nat) : file :=
  {| d_name := ("w" ++ decimal (Z.of_nat j))%string |}.

(** ** Concrete kernels *)

(** A 64-bit kernel on which every call gives the same answer. *)
Definition constant_kernel (signed : bool) (send_ret : Z) (recv : Z * list byte)
    (reg : channel -> Z) : kernel :=
  {| char_signed := signed;
     bits_per_long := 64;
     send_result := fun _ _ _ => send_ret;
     recv_result := fun _ _ _ => recv;
     register_result := fun _ ch _ => reg ch |}.

Definition EIO : Z := 5.
Definition ENOMEM : Z := 12.

(** A bus on which every transfer fails and nothing reaches the buffer. *)
Definition dead_bus : kernel :=
  constant_kernel false (- EIO) (- EIO, []) (fun _ => 0).

(** A board that answers every receive with [reply]. *)
Definition answering (signed : bool) (reply : list byte) : kernel :=
  constant_kernel signed 1 (Z.of_nat (List.length reply), reply) (fun _ => 0).

(** A kernel that refuses to register one channel. *)
Definition refusing (ch : channel) : kernel :=
  constant_kernel false 1 (1, [0])
    (fun c => if channel_eqb c ch then - ENOMEM else 0).

Definition the_client : i2c_client := {| addr := 0x50 |}.
Definition wrong_client : i2c_client := {| addr := 0x51 |}.
Definition the_board : expansion_dev := board the_client.

(** A user buffer with room for any result, holding the text "1". *)
Definition user_on : user_buffer := {| content := [49; 10]; writable := 64 |}.
(** The same, holding the text "0". *)
Definition user_off : user_buffer := {| content := [48; 10]; writable := 64 |}.

(** The text the specification gives for an output state: the character
    '0' or '1' and a newline. *)
Definition state_text (on : bool) : list byte :=
  [if on then byte_of_ascii "1" else byte_of_ascii "0"; 10].

(** Every channel of the board, outputs first. *)
Definition all_channels : list channel :=
  map Output (seq 0 OUTPUTS_COUNT) ++ map Reader (seq 0 READERS_COUNT).

(** The events of an attach in which nothing is refused. *)
Definition attach_trace (device : expansion_dev) : list event :=
  map (output_reg device 0) (seq 0 OUTPUTS_COUNT)
  ++ map (reader_reg device 0) (seq 0 READERS_COUNT).

(** The name of the node devtmpfs creates for a misc device: what follows
    the last '/' of the device name. *)
Fixpoint last_component_from (acc s : string) : string :=
  match s with
  | EmptyString => acc
  | String a s' =>
      if Ascii.eqb a "/" then last_component_from EmptyString s'
      else last_component_from (acc ++ String a EmptyString)%string s'
  end.

Definition last_component (s : string) : string :=
  last_component_from EmptyString s.

(** The index a handler reads back from a file name, for indices below 100:
    the only digit, or the first of the two. *)
Definition leading_digit (i : nat) : nat :=
  if (i <? 10)%nat then i else (i / 10)%nat.

(** The little-endian value of three bytes. *)
Definition little_endian (b0 b1 b2 : byte) : Z := b0 + 256 * b1 + 65536 * b2.

(** * Properties *)

(** ** Arithmetic of the C types *)

Lemma load_char_unsigned (b : byte) : CInt.load_char false b = b.
Proof. reflexivity. Qed.

Lemma load_char_low (s : bool) (b : byte) :
  b < 128 -> CInt.load_char s b = b.
Proof.
  intros Hb. unfold CInt.load_char.
  destruct s; simpl; [|reflexivity].
  destruct (128 <=? b) eqn:E; [apply Z.leb_le in E; lia | reflexivity].
Qed.

Lemma load_char_cong (s : bool) (b : byte) :
  0 <= b < 256 -> CInt.load_char s b mod 256 = b.
Proof.
  intros Hb. unfold CInt.load_char.
  destruct (s && (128 <=? b)).
  - replace (b - 256) with (b + (-1) * 256) by lia.
    rewrite Z.mod_add by lia. apply Z.mod_small; lia.
  - apply Z.mod_small; lia.
Qed.

(** Adding two plain chars and storing the sum in a char gives the same byte
    on every platform. *)
Lemma store_char_add (s : bool) (a b : byte) :
  0 <= a < 256 -> 0 <= b < 256 ->
  CInt.store_char (CInt.load_char s a + CInt.load_char s b) = (a + b) mod 256.
Proof.
  intros Ha Hb. unfold CInt.store_char. change (2 ^ 8) with 256.
  rewrite Z.add_mod by lia.
  rewrite !load_char_cong by assumption.
  reflexivity.
Qed.

(** A length below [2 ^ (bits - 1)] goes through [ssize_t] unchanged. *)
Lemma to_ssize_t_small (bits z : Z) :
  0 <= z < 2 ^ (bits - 1) -> CInt.to_ssize_t bits z = z.
Proof.
  intros Hz. unfold CInt.to_ssize_t.
  assert (Hb : 0 <= bits - 1).
  { destruct (Z.le_gt_cases 0 (bits - 1)) as [H | H]; [exact H|].
    rewrite Z.pow_neg_r in Hz by lia. lia. }
  replace bits with (Z.succ (bits - 1)) at 2 by lia.
  rewrite Z.pow_succ_r by exact Hb.
  rewrite Z.mod_small by lia. lia.
Qed.

(** ** Card numbers *)

Lemma card_bytes_range (v : Z) :
  Forall (fun b => 0 <= b < 256) (card_bytes v).
Proof.
  unfold card_bytes. repeat constructor; apply Z.mod_pos_bound; lia.
Qed.

(** With bytes read as unsigned values the decoding is the little-endian
    sum. *)
Lemma card_number_little_endian (b0 b1 b2 : byte) (rest : list byte) :
  0 <= b0 < 256 -> 0 <= b1 < 256 -> 0 <= b2 < 256 ->
  card_number false (b0 :: b1 :: b2 :: rest) = b0 + 256 * b1 + 65536 * b2.
Proof.
  intros H0 H1 H2.
  unfold card_number, CInt.add_uint, CInt.shl_uint, CInt.to_uint. simpl nth.
  rewrite !load_char_unsigned, !Z.shiftl_mul_pow2 by lia.
  change (2 ^ 16) with 65536. change (2 ^ 8) with 256.
  change (2 ^ 32) with 4294967296.
  rewrite (Z.mod_small b2), (Z.mod_small b1) by lia.
  rewrite (Z.mod_small (b2 * 65536)), (Z.mod_small (b1 * 256)) by lia.
  rewrite (Z.mod_small (b2 * 65536 + b1 * 256)) by lia.
  rewrite Z.mod_small by lia. lia.
Qed.

(** Where plain [char] is unsigned, decoding the three little-endian bytes
    of a 24-bit identifier gives the identifier back. *)
Lemma card_number_roundtrip_unsigned (v : Z) :
  0 <= v < 2 ^ 24 -> card_number false (card_bytes v) = v.
Proof.
  intros Hv. change (2 ^ 24) with 16777216 in Hv.
  unfold card_bytes.
  rewrite card_number_little_endian by (apply Z.mod_pos_bound; lia).
  assert (Hhi : (v / 65536) mod 256 = v / 65536).
  { apply Z.mod_small. split; [apply Z.div_pos; lia|].
    apply Z.div_lt_upper_bound; lia. }
  rewrite Hhi.
  pose proof (Z.div_mod v 256 ltac:(lia)) as E0.
  pose proof (Z.div_mod (v / 256) 256 ltac:(lia)) as E1.
  rewrite Z.div_div in E1 by lia. change (256 * 256) with 65536 in E1.
  lia.
Qed.

(** The same holds on every platform for identifiers whose bytes are all
    below 0x80. *)
Lemma card_number_low_bytes (s : bool) (b0 b1 b2 : byte) (rest : list byte) :
  0 <= b0 < 128 -> 0 <= b1 < 128 -> 0 <= b2 < 128 ->
  card_number s (b0 :: b1 :: b2 :: rest) = b0 + 256 * b1 + 65536 * b2.
Proof.
  intros H0 H1 H2.
  rewrite <- (card_number_little_endian b0 b1 b2 rest) by lia.
  unfold card_number. simpl nth.
  rewrite !(load_char_low s), !load_char_unsigned by lia.
  reflexivity.
Qed.

(** The bytes 01 02 03 decode to 197121 whatever the platform. *)
Lemma card_number_010203 (s : bool) (rest : list byte) :
  card_number s (1 :: 2 :: 3 :: rest) = 197121.
Proof. rewrite card_number_low_bytes by lia. reflexivity. Qed.

(** C2, evaluated where it fails: on a platform whose plain [char] is
    signed, the identifier 128 arrives as the bytes 80 00 00 and decodes to
    4294967168 instead of 128, since [response[0]] is sign-extended before
    it is added; [reader_read] then prints it with [%d] as -128. *)
Theorem card_number_sign_extends :
  card_bytes 128 = [128; 0; 0] /\
  card_number true (card_bytes 128) = 4294967168 /\
  card_number true (card_bytes 128) <> 128 /\
  copies (snd (reader_read (answering true (card_bytes 128 ++ repeat 0 5%nat))
                 the_board (reader_file 0) user_on 64 0
                 (repeat 0 8%nat) (repeat 0 12%nat) []))
  = [bytes_of_string "-128" ++ 10 :: repeat 0 7%nat].
Proof.
  repeat split; try reflexivity.
  vm_compute. discriminate.
Qed.

(** ** The monad *)

Lemma bind_run {A B : Type} (m : M A) (f : A -> M B) (h : list event) :
  bind m f h =
  (fst (f (fst (m h)) (h ++ snd (m h))),
   snd (m h) ++ snd (f (fst (m h)) (h ++ snd (m h)))).
Proof.
  unfold bind. destruct (m h) as [a e1]. simpl.
  destruct (f a (h ++ e1)) as [b e2]. reflexivity.
Qed.

Lemma sends_app (e1 e2 : list event) : sends (e1 ++ e2) = sends e1 ++ sends e2.
Proof.
  induction e1 as [|e e1 IH]; [reflexivity|].
  destruct e; simpl; rewrite IH; reflexivity.
Qed.

Lemma receives_app (e1 e2 : list event) :
  receives (e1 ++ e2) = receives e1 ++ receives e2.
Proof.
  induction e1 as [|e e1 IH]; [reflexivity|].
  destruct e; simpl; rewrite IH; reflexivity.
Qed.

Lemma deregistrations_app (e1 e2 : list event) :
  deregistrations (e1 ++ e2) = deregistrations e1 ++ deregistrations e2.
Proof.
  induction e1 as [|e e1 IH]; [reflexivity|].
  destruct e; simpl; rewrite IH; reflexivity.
Qed.

Lemma deregistrations_map (f : nat -> channel) (l : list nat) :
  deregistrations (map (fun j => misc_dereg (f j)) l) = map f l.
Proof.
  induction l as [|x l IH]; [reflexivity|]. simpl. rewrite IH. reflexivity.
Qed.

(** ** Loops *)

(** A loop that only deregisters leaves one event per index, in order,
    whatever the history. *)
Lemma for_each_upto_deregister (f : nat -> channel) (n i : nat) (h : list event) :
  for_each_upto n i (fun index => misc_deregister (f index)) h
  = (tt, map (fun j => misc_dereg (f j)) (seq i n)).
Proof.
  revert i h. induction n as [|n IH]; intros i h; [reflexivity|].
  simpl for_each_upto. rewrite bind_run, IH. reflexivity.
Qed.

Lemma for_each_deregister (f : nat -> channel) (bound : nat) (h : list event) :
  for_each 0 bound (fun index => misc_deregister (f index)) h
  = (tt, map (fun j => misc_dereg (f j)) (seq 0 bound)).
Proof.
  unfold for_each. rewrite Nat.sub_0_r. apply for_each_upto_deregister.
Qed.

(** ** Attaching *)

Section Attach.

Variable K : kernel.
Variable device : expansion_dev.

(** One turn of the first loop of [probe]. *)
Lemma probe_output_run (i : nat) (h : list event) :
  probe_output K device i h =
  let e := register_result K h (Output i) (output_devname device i) in
  if e =? 0 then (None, [output_reg device e i])
  else (Some e,
        output_reg device e i :: output_failed device i
        :: map (fun j => misc_dereg (Output j)) (seq 0 i)).
Proof.
  unfold probe_output. rewrite bind_run.
  unfold add_output, misc_register. cbn [fst snd].
  fold (output_devname device i).
  destruct (register_result K h (Output i) (output_devname device i) =? 0) eqn:E;
    cbn [negb].
  - reflexivity.
  - rewrite !bind_run. unfold pr_err, emit, ret. cbn [fst snd].
    rewrite for_each_deregister. cbn [fst snd].
    rewrite app_nil_r. reflexivity.
Qed.

(** One turn of the second loop. *)
Lemma probe_reader_run (output i : nat) (h : list event) :
  probe_reader K device output i h =
  let e := register_result K h (Reader i) (reader_devname device i) in
  if e =? 0 then (None, [reader_reg device e i])
  else (Some e,
        reader_reg device e i :: reader_failed device output
        :: map (fun j => misc_dereg (Reader j)) (seq 0 i)
        ++ map (fun j => misc_dereg (Output j)) (seq 0 OUTPUTS_COUNT)).
Proof.
  unfold probe_reader. rewrite bind_run.
  unfold add_reader, misc_register. cbn [fst snd].
  fold (reader_devname device i).
  destruct (register_result K h (Reader i) (reader_devname device i) =? 0) eqn:E;
    cbn [negb].
  - reflexivity.
  - rewrite !bind_run. unfold pr_err, emit, ret. cbn [fst snd].
    rewrite !for_each_deregister. cbn [fst snd].
    rewrite app_nil_r. reflexivity.
Qed.

(** The first loop either registers every output it was left with, or
    stops at the first refusal and rolls back the outputs before it. *)
Lemma probe_outputs_loop (n i : nat) (h : list event) :
  (fst (for_upto n i (probe_output K device) h) = Finished (i + n)
   /\ snd (for_upto n i (probe_output K device) h)
      = map (output_reg device 0) (seq i n))
  \/ exists k e, (k < n)%nat /\ e <> 0
     /\ for_upto n i (probe_output K device) h
        = (Returned e, output_rollback device i k e).
Proof.
  revert i h. induction n as [|n IH]; intros i h.
  - left. simpl. split; [f_equal; lia | reflexivity].
  - simpl for_upto. rewrite bind_run, probe_output_run. cbv zeta.
    destruct (register_result K h (Output i) (output_devname device i) =? 0) eqn:E.
    + apply Z.eqb_eq in E. rewrite E. cbn [fst snd].
      destruct (IH (S i) (h ++ [output_reg device 0 i])) as [[Hf Hs] | (k & e & Hk & He & Hr)].
      * left. rewrite Hf, Hs. split; [f_equal; lia | reflexivity].
      * right. exists (S k), e. repeat split; [lia | exact He |].
        rewrite Hr. cbn [fst snd]. unfold output_rollback.
        replace (i + S k)%nat with (S i + k)%nat by lia. reflexivity.
    + apply Z.eqb_neq in E. right.
      exists 0%nat, (register_result K h (Output i) (output_devname device i)).
      repeat split; [lia | exact E |].
      cbn [fst snd]. unfold ret, output_rollback.
      rewrite Nat.add_0_r, app_nil_r. reflexivity.
Qed.

Lemma probe_readers_loop (output n i : nat) (h : list event) :
  (fst (for_upto n i (probe_reader K device output) h) = Finished (i + n)
   /\ snd (for_upto n i (probe_reader K device output) h)
      = map (reader_reg device 0) (seq i n))
  \/ exists k e, (k < n)%nat /\ e <> 0
     /\ for_upto n i (probe_reader K device output) h
        = (Returned e, reader_rollback device output i k e).
Proof.
  revert i h. induction n as [|n IH]; intros i h.
  - left. simpl. split; [f_equal; lia | reflexivity].
  - simpl for_upto. rewrite bind_run, probe_reader_run. cbv zeta.
    destruct (register_result K h (Reader i) (reader_devname device i) =? 0) eqn:E.
    + apply Z.eqb_eq in E. rewrite E. cbn [fst snd].
      destruct (IH (S i) (h ++ [reader_reg device 0 i])) as [[Hf Hs] | (k & e & Hk & He & Hr)].
      * left. rewrite Hf, Hs. split; [f_equal; lia | reflexivity].
      * right. exists (S k), e. repeat split; [lia | exact He |].
        rewrite Hr. cbn [fst snd]. unfold reader_rollback.
        replace (i + S k)%nat with (S i + k)%nat by lia. reflexivity.
    + apply Z.eqb_neq in E. right.
      exists 0%nat, (register_result K h (Reader i) (reader_devname device i)).
      repeat split; [lia | exact E |].
      cbn [fst snd]. unfold ret, reader_rollback.
      rewrite Nat.add_0_r, app_nil_r. reflexivity.
Qed.

End Attach.

(** Splits a membership in an explicit trace into its cases and drops the
    events that cannot be the one looked for. *)
Ltac trace_cases H :=
  simpl in H;
  repeat (destruct H as [H | H];
          [ first [ discriminate H | injection H as; subst ] | ]);
  try contradiction.

(** The three ways a run of [probe] on a recognised client can go. *)
Lemma probe_cases (K : kernel) (c : i2c_client) (error0 : Z) (h : list event) :
  addr c = 0x50 ->
  probe K c error0 h = (0, Some (board c), attach_trace (board c))
  \/ (exists k e, (k < OUTPUTS_COUNT)%nat /\ e <> 0
      /\ probe K c error0 h
         = (e, Some (board c), output_rollback (board c) 0 k e))
  \/ (exists k e, (k < READERS_COUNT)%nat /\ e <> 0
      /\ probe K c error0 h
         = (e, Some (board c),
            map (output_reg (board c) 0) (seq 0 OUTPUTS_COUNT)
            ++ reader_rollback (board c) OUTPUTS_COUNT 0 k e)).
Proof.
  intros Ha. unfold probe. rewrite Ha. change (0x50 =? 0x50) with true.
  cbv iota. fold (board c). unfold for_loop. rewrite !Nat.sub_0_r.
  rewrite bind_run.
  destruct (probe_outputs_loop K (board c) OUTPUTS_COUNT 0 h)
    as [[Hf Hs] | (k & e & Hk & He & Hr)].
  - rewrite Hf, Hs. cbv iota beta. rewrite bind_run.
    change (0 + OUTPUTS_COUNT)%nat with OUTPUTS_COUNT.
    set (h1 := h ++ map (output_reg (board c) 0) (seq 0 OUTPUTS_COUNT)).
    destruct (probe_readers_loop K (board c) OUTPUTS_COUNT READERS_COUNT 0 h1)
      as [[Hf2 Hs2] | (k & e & Hk & He & Hr)].
    + left. rewrite Hf2, Hs2. cbv iota beta. unfold ret. cbn [fst snd].
      rewrite app_nil_r. reflexivity.
    + right. right. exists k, e. repeat split; try assumption.
      rewrite Hr. cbn [fst snd]. unfold ret. rewrite app_nil_r. reflexivity.
  - right. left. exists k, e. repeat split; try assumption.
    rewrite Hr. cbn [fst snd]. unfold ret. rewrite app_nil_r. reflexivity.
Qed.

(** C1: attach is all-or-nothing.  Every run of [probe] on a recognised
    client is one of three.  Either all five registrations returned 0,
    nothing is deregistered, the five channels are registered and [probe]
    returns 0.  Or registering output [k] returned a nonzero [e] after
    outputs [0..k-1] were registered: no reader is tried, exactly outputs
    [0..k-1] are deregistered, nothing is left registered and [probe]
    returns [e].  Or registering reader [k] returned a nonzero [e] after
    every output and readers [0..k-1] were registered: readers [0..k-1]
    then all [OUTPUTS_COUNT] outputs are deregistered, nothing is left
    registered and [probe] returns [e].  So whenever a registration made by
    [probe] fails, the channels registered before it are deregistered
    before [probe] returns the error. *)
Theorem probe_all_or_nothing (K : kernel) (c : i2c_client) (error0 : Z)
    (h : list event) (r : Z) (d : option expansion_dev) (evs : list event) :
  addr c = 0x50 ->
  probe K c error0 h = (r, d, evs) ->
  ((r = 0
    /\ registrations evs = map (fun ch => (ch, 0)) all_channels
    /\ deregistrations evs = []
    /\ registered_after [] evs = all_channels)
   \/ (exists k e,
         (k < OUTPUTS_COUNT)%nat /\ e <> 0 /\ r = e
         /\ registrations evs
            = map (fun i => (Output i, 0)) (seq 0 k) ++ [(Output k, e)]
         /\ deregistrations evs = map Output (seq 0 k)
         /\ registered_after [] evs = [])
   \/ (exists k e,
         (k < READERS_COUNT)%nat /\ e <> 0 /\ r = e
         /\ registrations evs
            = map (fun i => (Output i, 0)) (seq 0 OUTPUTS_COUNT)
              ++ map (fun i => (Reader i, 0)) (seq 0 k) ++ [(Reader k, e)]
         /\ deregistrations evs
            = map Reader (seq 0 k) ++ map Output (seq 0 OUTPUTS_COUNT)
         /\ registered_after [] evs = []))
  /\ (forall (ch : channel) (devname : string) (fops : file_operations) (e : Z),
        In (misc_reg ch devname fops e) evs ->
        e <> 0 ->
        r = e /\ registered_after [] evs = [] /\
        match ch with
        | Output k =>
            (k < OUTPUTS_COUNT)%nat
            /\ registrations evs
               = map (fun i => (Output i, 0)) (seq 0 k) ++ [(Output k, e)]
            /\ deregistrations evs = map Output (seq 0 k)
        | Reader k =>
            (k < READERS_COUNT)%nat
            /\ registrations evs
               = map (fun i => (Output i, 0)) (seq 0 OUTPUTS_COUNT)
                 ++ map (fun i => (Reader i, 0)) (seq 0 k) ++ [(Reader k, e)]
            /\ deregistrations evs
               = map Reader (seq 0 k) ++ map Output (seq 0 OUTPUTS_COUNT)
        end).
Proof.
  intros Ha Hrun.
  destruct (probe_cases K c error0 h Ha)
    as [E | [(k & e & Hk & He & E) | (k & e & Hk & He & E)]];
    rewrite E in Hrun; injection Hrun as <- <- <-.
  - split.
    + left. repeat split.
    + intros ch devname fops e Hin He. exfalso.
      trace_cases Hin; apply He; reflexivity.
  - pose proof He as Hne. apply Z.eqb_neq in Hne.
    unfold OUTPUTS_COUNT in Hk. split.
    + right. left. exists k, e.
      destruct k as [|[|[|k]]]; [| | |lia];
        simpl; rewrite Hne; repeat split;
        try assumption; unfold OUTPUTS_COUNT; lia.
    + intros ch devname fops e0 Hin He0.
      destruct k as [|[|[|k]]]; [| | |lia];
        trace_cases Hin; try (exfalso; apply He0; reflexivity);
        simpl; rewrite Hne; repeat split; unfold OUTPUTS_COUNT; lia.
  - pose proof He as Hne. apply Z.eqb_neq in Hne.
    unfold READERS_COUNT in Hk. split.
    + right. right. exists k, e.
      destruct k as [|[|k]]; [| |lia];
        simpl; rewrite Hne; repeat split;
        try assumption; unfold READERS_COUNT; lia.
    + intros ch devname fops e0 Hin He0.
      destruct k as [|[|k]]; [| |lia];
        trace_cases Hin; try (exfalso; apply He0; reflexivity);
        simpl; rewrite Hne; repeat split; unfold READERS_COUNT; lia.
Qed.

Lemma probe_all_or_nothing_witness :
  let run := probe (refusing (Reader 1)) the_client 0 [] in
  fst (fst run) = - ENOMEM /\ registered_after [] (snd run) = [] /\
  (1 < READERS_COUNT)%nat /\
  registrations (snd run)
  = [(Output 0%nat, 0); (Output 1%nat, 0); (Output 2%nat, 0);
     (Reader 0%nat, 0); (Reader 1%nat, - ENOMEM)] /\
  deregistrations (snd run)
  = [Reader 0%nat; Output 0%nat; Output 1%nat; Output 2%nat].
Proof.
  apply (proj2 (probe_all_or_nothing (refusing (Reader 1)) the_client 0 []
                  (- ENOMEM) (Some the_board)
                  (snd (probe (refusing (Reader 1)) the_client 0 []))
                  eq_refl eq_refl)
           (Reader 1) (reader_devname the_board 1) readers_fops (- ENOMEM)).
  - simpl. auto 10.
  - discriminate.
Defined.

(** The two rollbacks of the specification's examples, run. *)
Example probe_output1_refused :
  probe (refusing (Output 1)) the_client 0 [] =
  (- ENOMEM, Some the_board,
   [misc_reg (Output 0) "/exp0/s0" outputs_fops 0;
    misc_reg (Output 1) "/exp0/s1" outputs_fops (- ENOMEM);
    printk_err "No se pudo registrar el dispositivo /exp0/s1";
    misc_dereg (Output 0)]).
Proof. reflexivity. Qed.

Example probe_reader0_refused :
  probe (refusing (Reader 0)) the_client 0 [] =
  (- ENOMEM, Some the_board,
   [misc_reg (Output 0) "/exp0/s0" outputs_fops 0;
    misc_reg (Output 1) "/exp0/s1" outputs_fops 0;
    misc_reg (Output 2) "/exp0/s2" outputs_fops 0;
    misc_reg (Reader 0) "/exp0/w0" readers_fops (- ENOMEM);
    printk_err "No se pudo registrar el dispositivo /exp0/w3";
    misc_dereg (Output 0); misc_dereg (Output 1); misc_dereg (Output 2)]).
Proof. reflexivity. Qed.

(** When nothing is refused all five channels stay registered. *)
Lemma probe_outputs_accepted (K : kernel) (device : expansion_dev) (n i : nat)
    (h : list event) :
  (forall h' ch devname, register_result K h' ch devname = 0) ->
  for_upto n i (probe_output K device) h
  = (Finished (i + n), map (output_reg device 0) (seq i n)).
Proof.
  intros Hreg. revert i h. induction n as [|n IH]; intros i h.
  - simpl. unfold ret. rewrite Nat.add_0_r. reflexivity.
  - simpl for_upto. rewrite bind_run, probe_output_run. cbv zeta.
    rewrite Hreg. cbn [Z.eqb fst snd]. rewrite IH.
    replace (S i + n)%nat with (i + S n)%nat by lia. reflexivity.
Qed.

Lemma probe_readers_accepted (K : kernel) (device : expansion_dev) (output n i : nat)
    (h : list event) :
  (forall h' ch devname, register_result K h' ch devname = 0) ->
  for_upto n i (probe_reader K device output) h
  = (Finished (i + n), map (reader_reg device 0) (seq i n)).
Proof.
  intros Hreg. revert i h. induction n as [|n IH]; intros i h.
  - simpl. unfold ret. rewrite Nat.add_0_r. reflexivity.
  - simpl for_upto. rewrite bind_run, probe_reader_run. cbv zeta.
    rewrite Hreg. cbn [Z.eqb fst snd]. rewrite IH.
    replace (S i + n)%nat with (i + S n)%nat by lia. reflexivity.
Qed.

Lemma probe_success (K : kernel) (c : i2c_client) (error0 : Z) (h : list event) :
  addr c = 0x50 ->
  (forall h' ch devname, register_result K h' ch devname = 0) ->
  probe K c error0 h =
  (0, Some (board c),
   map (output_reg (board c) 0) (seq 0 OUTPUTS_COUNT)
   ++ map (reader_reg (board c) 0) (seq 0 READERS_COUNT)).
Proof.
  intros Ha Hreg. unfold probe. rewrite Ha. change (0x50 =? 0x50) with true.
  cbv iota. fold (board c). unfold for_loop. rewrite !Nat.sub_0_r.
  rewrite bind_run, probe_outputs_accepted by exact Hreg. cbn [fst snd].
  rewrite bind_run, probe_readers_accepted by exact Hreg. cbn [fst snd].
  unfold ret. rewrite app_nil_r. reflexivity.
Qed.

(** A client at any other address gets the message, no registration, and
    whatever the local [error] held as return value. *)
Lemma probe_unrecognised (K : kernel) (c : i2c_client) (error0 : Z) (h : list event) :
  addr c <> 0x50 ->
  probe K c error0 h =
  (error0, None, [printk_err "No se reconoce la direccion del dispositivo"]).
Proof.
  intros Ha. unfold probe. apply Z.eqb_neq in Ha. rewrite Ha. reflexivity.
Qed.

(** C7, evaluated where it fails: for a client at address 0x51, with the
    stack slot of [error] holding 0, [probe] registers nothing and returns
    0, the value it returns after a complete attach; no error is reported. *)
Theorem probe_wrong_address_returns_zero (K : kernel) (h : list event) :
  addr wrong_client <> 0x50 /\
  fst (fst (probe K wrong_client 0 h)) = 0 /\
  registrations (snd (probe K wrong_client 0 h)) = [] /\
  fst (fst (probe (constant_kernel false 1 (1, [0]) (fun _ => 0)) the_client 0 h)) = 0.
Proof.
  repeat split; try reflexivity. discriminate.
Qed.

(** ** Detaching *)

(** C8: [remove] hands every output, in ascending order, then every reader
    to [misc_deregister], whatever happened before (also when some of the
    channels were never registered or are already gone): five calls, no
    early exit, and it returns 0. *)
Theorem remove_deregisters_all (device : expansion_dev) (h : list event) :
  fst (remove device h) = 0 /\
  snd (remove device h)
  = map (fun j => misc_dereg (Output j)) (seq 0 OUTPUTS_COUNT)
    ++ map (fun j => misc_dereg (Reader j)) (seq 0 READERS_COUNT) /\
  deregistrations (snd (remove device h))
  = map Output (seq 0 OUTPUTS_COUNT) ++ map Reader (seq 0 READERS_COUNT) /\
  List.length (snd (remove device h)) = (OUTPUTS_COUNT + READERS_COUNT)%nat.
Proof.
  assert (E : remove device h =
              (0, map (fun j => misc_dereg (Output j)) (seq 0 OUTPUTS_COUNT)
                  ++ map (fun j => misc_dereg (Reader j)) (seq 0 READERS_COUNT))).
  { unfold remove. rewrite !bind_run, !for_each_deregister. cbn [fst snd].
    unfold ret. rewrite app_nil_r. reflexivity. }
  rewrite E. cbn [fst snd].
  split; [reflexivity|]. split; [reflexivity|]. split.
  - rewrite deregistrations_app, !deregistrations_map. reflexivity.
  - rewrite length_app, !length_map, !length_seq. reflexivity.
Qed.

(** ** File handlers *)

(** The file of output [i] (resp. reader [j]) carries its index in the
    second character of its name. *)
Lemma channel_of_output_file (i : nat) :
  (i < OUTPUTS_COUNT)%nat -> channel_of_name (output_file i) = Z.of_nat i.
Proof.
  unfold OUTPUTS_COUNT. intros Hi.
  destruct i as [|[|[|i]]]; [reflexivity | reflexivity | reflexivity | lia].
Qed.

Lemma channel_of_reader_file (j : nat) :
  (j < READERS_COUNT)%nat -> channel_of_name (reader_file j) = Z.of_nat j.
Proof.
  unfold READERS_COUNT. intros Hj.
  destruct j as [|[|j]]; [reflexivity | reflexivity | lia].
Qed.

(** Runs a handler symbolically: binds are sequenced, kernel services are
    replaced by their oracle answers, and the remaining tests are split. *)
Ltac run_handler :=
  rewrite ?bind_run;
  unfold i2c_master_send, i2c_master_recv, copy_to_user, ret;
  cbn [fst snd];
  repeat match goal with
         | |- context [recv_result ?K ?h ?a ?n] =>
             destruct (recv_result K h a n) as [? ?]
         end;
  cbn [fst snd app sends receives copies].

Section Handlers.

Variable K : kernel.
Variable device : expansion_dev.
Variable f : file.
Variable buffer : user_buffer.
Variables count len : Z.
Variable h : list event.

(** A state query at offset 0 is one send of the one-byte address, one
    receive of one byte and one copy to the caller. *)
Lemma output_read_transfers (response0 : byte) :
  let evs := snd (output_read K device f buffer count 0 response0 h) in
  sends evs = [[CInt.store_char (0x70 + channel_of_name f)]]
  /\ receives evs = [1%nat]
  /\ List.length (copies evs) = 1%nat.
Proof.
  unfold output_read. change (0 =? 0) with true. cbv iota zeta.
  run_handler.
  match goal with |- context [if ?b then _ else _] => destruct b end;
    repeat split.
Qed.

(** A card query at offset 0 is one send of the one-byte address, one
    receive of eight bytes and one copy to the caller. *)
Lemma reader_read_transfers (response0 data0 : list byte) :
  let evs := snd (reader_read K device f buffer count 0 response0 data0 h) in
  sends evs = [[CInt.store_char (0x10 + 0x08 * channel_of_name f)]]
  /\ receives evs = [8%nat]
  /\ List.length (copies evs) = 1%nat.
Proof.
  unfold reader_read. change (0 =? 0) with true. cbv iota zeta.
  run_handler.
  match goal with |- context [if ?b then _ else _] => destruct b end;
    repeat split.
Qed.

(** A set request of at least one readable byte is one send of the
    command byte and the index, and nothing else. *)
Lemma output_write_transfers (f_pos : Z) (b : byte) (rest : list byte) :
  len <> 0 -> content buffer = b :: rest ->
  output_write K device f buffer len f_pos h =
  (CInt.to_ssize_t (bits_per_long K) len,
   [i2c_send (addr (client device))
      [if CInt.load_char (char_signed K) b =? 0x31 then 0x71 else 0x70;
       CInt.store_char (channel_of_name f)]
      (send_result K h (addr (client device))
         [if CInt.load_char (char_signed K) b =? 0x31 then 0x71 else 0x70;
          CInt.store_char (channel_of_name f)])]).
Proof.
  intros Hlen Hb. unfold output_write, copy_from_user_1.
  apply Z.eqb_neq in Hlen. rewrite Hlen, Hb.
  run_handler. reflexivity.
Qed.

End Handlers.

(** The first character decides the command: '1' switches on, any other
    byte switches off. *)
Lemma load_char_is_one (s : bool) (b : byte) :
  0 <= b < 256 -> (CInt.load_char s b =? 0x31) = (b =? 0x31).
Proof.
  intros Hb. unfold CInt.load_char.
  destruct (s && (128 <=? b)) eqn:E; [|reflexivity].
  apply andb_true_iff in E. destruct E as [_ E]. apply Z.leb_le in E.
  transitivity false; [apply Z.eqb_neq | symmetry; apply Z.eqb_neq]; lia.
Qed.

(** A length of [2 ^ (bits - 1)] or more comes back negative: on a 64-bit
    kernel a request of [2 ^ 64 - 1] bytes sends its command and returns
    -1. *)
Example output_write_length_wraps :
  output_write (answering false [1]) the_board (output_file 0) user_on
    (2 ^ 64 - 1) 0 []
  = (-1, [i2c_send 0x50 [0x71; 0] 1]).
Proof. reflexivity. Qed.

(** C4: at offset 0 the state query of output [i] sends the single byte
    [0x70 + i], and the card query of reader [j] sends the single byte
    [0x10 + 8 * j]. *)
Theorem query_addresses (K : kernel) (device : expansion_dev) (buffer : user_buffer)
    (count : Z) (response0 : byte) (response8 data0 : list byte)
    (h : list event) (i j : nat) :
  (i < OUTPUTS_COUNT)%nat ->
  (j < READERS_COUNT)%nat ->
  sends (snd (output_read K device (output_file i) buffer count 0 response0 h))
  = [[0x70 + Z.of_nat i]]
  /\ sends (snd (reader_read K device (reader_file j) buffer count 0
                   response8 data0 h))
     = [[0x10 + 8 * Z.of_nat j]].
Proof.
  intros Hi Hj.
  destruct (output_read_transfers K device (output_file i) buffer count h response0)
    as (-> & _).
  destruct (reader_read_transfers K device (reader_file j) buffer count h
              response8 data0) as (-> & _).
  rewrite channel_of_output_file, channel_of_reader_file by assumption.
  unfold OUTPUTS_COUNT, READERS_COUNT in *. unfold CInt.store_char.
  rewrite !Z.mod_small by (change (2 ^ 8) with 256; lia).
  split; reflexivity.
Qed.

Lemma query_addresses_witness :
  sends (snd (output_read (answering false [1]) the_board (output_file 2)
                user_on 64 0 0 []))
  = [[0x72]]
  /\ sends (snd (reader_read (answering false [1; 2; 3; 0; 0; 0; 0; 0]) the_board
                   (reader_file 1) user_on 64 0 (repeat 0 8%nat) (repeat 0 12%nat) []))
     = [[0x18]].
Proof.
  apply (query_addresses (answering false [1]) the_board user_on 64 0
           (repeat 0 8%nat) (repeat 0 12%nat) [] 2 1);
    unfold OUTPUTS_COUNT, READERS_COUNT; lia.
Defined.

(** C6: on output [i], a set request whose text starts with '1' followed by
    one whose text starts with any other byte leaves exactly two events,
    the sends of [0x71, i] and then [0x70, i]; nothing is received. *)
Theorem set_on_then_off (K : kernel) (device : expansion_dev)
    (buffer_on buffer_off : user_buffer) (len_on len_off pos_on pos_off : Z)
    (h : list event) (i : nat) (rest_on rest_off : list byte) (c : byte)
    (r : Z) (evs : list event) :
  (i < OUTPUTS_COUNT)%nat ->
  len_on <> 0 -> len_off <> 0 ->
  content buffer_on = 0x31 :: rest_on ->
  content buffer_off = c :: rest_off -> 0 <= c < 256 -> c <> 0x31 ->
  (output_write K device (output_file i) buffer_on len_on pos_on ;;
   output_write K device (output_file i) buffer_off len_off pos_off) h = (r, evs) ->
  sends evs = [[0x71; Z.of_nat i]; [0x70; Z.of_nat i]]
  /\ receives evs = []
  /\ List.length evs = 2%nat.
Proof.
  intros Hi Hon Hoff Con Coff Hc Hc1 Hrun.
  rewrite bind_run in Hrun.
  rewrite (output_write_transfers K device (output_file i) buffer_on len_on h
             pos_on 0x31 rest_on Hon Con) in Hrun.
  cbn [fst snd] in Hrun.
  rewrite (output_write_transfers K device (output_file i) buffer_off len_off _
             pos_off c rest_off Hoff Coff) in Hrun.
  cbn [fst snd] in Hrun. injection Hrun as <- <-.
  rewrite !load_char_is_one by lia.
  apply Z.eqb_neq in Hc1. rewrite Hc1. change (0x31 =? 0x31) with true.
  rewrite channel_of_output_file by assumption.
  unfold OUTPUTS_COUNT in Hi. unfold CInt.store_char.
  rewrite Z.mod_small by (change (2 ^ 8) with 256; lia).
  repeat split.
Qed.

Lemma set_on_then_off_witness :
  sends (snd ((output_write dead_bus the_board (output_file 1) user_on 2 0 ;;
               output_write dead_bus the_board (output_file 1) user_off 2 0) []))
  = [[0x71; 1]; [0x70; 1]]
  /\ receives (snd ((output_write dead_bus the_board (output_file 1) user_on 2 0 ;;
                     output_write dead_bus the_board (output_file 1) user_off 2 0) []))
     = []
  /\ List.length (snd ((output_write dead_bus the_board (output_file 1) user_on 2 0 ;;
                        output_write dead_bus the_board (output_file 1) user_off 2 0) []))
     = 2%nat.
Proof.
  apply (set_on_then_off dead_bus the_board user_on user_off 2 2 0 0 [] 1
           [10] [10] 0x30 2);
    try reflexivity; try discriminate; try lia.
  unfold OUTPUTS_COUNT; lia.
Defined.

(** C9: a set request of length 0 returns 0 and leaves no event: nothing is
    sent, so the output keeps its state. *)
Theorem output_write_empty (K : kernel) (device : expansion_dev) (f : file)
    (buffer : user_buffer) (f_pos : Z) (h : list event) :
  output_write K device f buffer 0 f_pos h = (0, []).
Proof. reflexivity. Qed.

(** C10: at a nonzero offset both read handlers return 0, leave the offset
    as it is and leave no event: no send, no receive, no copy. *)
Theorem read_at_nonzero_offset (K : kernel) (device : expansion_dev) (f : file)
    (buffer : user_buffer) (count f_pos : Z) (response0 : byte)
    (response8 data0 : list byte) (h : list event) :
  f_pos <> 0 ->
  output_read K device f buffer count f_pos response0 h = (0, f_pos, [])
  /\ reader_read K device f buffer count f_pos response8 data0 h = (0, f_pos, []).
Proof.
  intros Hpos. apply Z.eqb_neq in Hpos.
  unfold output_read, reader_read. rewrite Hpos. split; reflexivity.
Qed.

Lemma read_at_nonzero_offset_witness :
  output_read (answering false [1]) the_board (output_file 0) user_on 64 3 0 []
  = (0, 3, [])
  /\ reader_read (answering false [1]) the_board (output_file 0) user_on 64 3
       (repeat 0 8%nat) (repeat 0 12%nat) []
     = (0, 3, []).
Proof.
  apply (read_at_nonzero_offset (answering false [1]) the_board (output_file 0)
           user_on 64 3 0 (repeat 0 8%nat) (repeat 0 12%nat) []).
  discriminate.
Defined.

(** ** Transport failures *)

Lemma memset_length (dst : list byte) (c : byte) (n : nat) :
  List.length (memset dst c n) = List.length dst.
Proof.
  unfold memset. rewrite length_app, repeat_length, length_skipn. lia.
Qed.

Lemma snprintf_bytes_length (dst : list byte) (size : nat) (text : string) :
  (size <= List.length dst)%nat ->
  List.length (snprintf_bytes dst size text) = List.length dst.
Proof.
  intros Hsize. unfold snprintf_bytes.
  destruct size as [|size]; [reflexivity|].
  rewrite !length_app, length_skipn. cbn [List.length].
  assert (List.length (firstn (S size - 1) (bytes_of_string text)) <= size)%nat.
  { rewrite length_firstn. lia. }
  lia.
Qed.

(** Copying [count] bytes from an array of [count] bytes into a buffer with
    room for them leaves nothing uncopied. *)
Lemma copy_to_user_all (buffer : user_buffer) (data : list byte) (count : nat)
    (h : list event) :
  (count <= writable buffer)%nat -> List.length data = count ->
  copy_to_user buffer data count h = (0, [user_copy data]).
Proof.
  intros Hw Hlen. unfold copy_to_user.
  rewrite Nat.min_l by exact Hw.
  rewrite firstn_all2 by lia. rewrite Hlen, Nat.sub_diag. reflexivity.
Qed.

(** Copying into a buffer that is too short copies what fits and reports
    the rest. *)
Lemma copy_to_user_short (buffer : user_buffer) (data : list byte) (count : nat)
    (h : list event) :
  (writable buffer < count)%nat -> List.length data = count ->
  copy_to_user buffer data count h
  = (Z.of_nat (count - writable buffer),
     [user_copy (firstn (writable buffer) data)]).
Proof.
  intros Hw Hlen. unfold copy_to_user.
  rewrite Nat.min_r by lia. rewrite length_firstn, Hlen, Nat.min_l by lia.
  reflexivity.
Qed.

Lemma reader_text_length (data0 : list byte) (text : string) :
  List.length data0 = 12%nat ->
  List.length (snprintf_bytes (memset data0 0 8) 12 text) = 12%nat.
Proof.
  intros Hlen. rewrite snprintf_bytes_length; rewrite memset_length; lia.
Qed.

(** What a state query at offset 0 returns, and where it leaves the
    offset: decided by the room in the caller's buffer alone. *)
Lemma output_read_return (K : kernel) (device : expansion_dev) (f : file)
    (buffer : user_buffer) (count : Z) (response0 : byte) (h : list event) :
  fst (output_read K device f buffer count 0 response0 h)
  = if (3 <=? writable buffer)%nat then (3, 3) else (- EFAULT, 0).
Proof.
  unfold output_read. change (0 =? 0) with true. cbv iota zeta.
  rewrite !bind_run.
  destruct (3 <=? writable buffer)%nat eqn:E.
  - apply Nat.leb_le in E.
    rewrite copy_to_user_all by (try reflexivity; lia). reflexivity.
  - apply Nat.leb_gt in E.
    rewrite copy_to_user_short by (try reflexivity; lia). cbn [fst snd].
    replace (Z.of_nat (3 - writable buffer) =? 0) with false
      by (symmetry; apply Z.eqb_neq; lia).
    reflexivity.
Qed.

(** The same for a card query. *)
Lemma reader_read_return (K : kernel) (device : expansion_dev) (f : file)
    (buffer : user_buffer) (count : Z) (response8 data0 : list byte)
    (h : list event) :
  List.length data0 = 12%nat ->
  fst (reader_read K device f buffer count 0 response8 data0 h)
  = if (12 <=? writable buffer)%nat then (12, 12) else (- EFAULT, 0).
Proof.
  intros Hlen. unfold reader_read. change (0 =? 0) with true. cbv iota zeta.
  rewrite !bind_run.
  destruct (12 <=? writable buffer)%nat eqn:E.
  - apply Nat.leb_le in E.
    rewrite copy_to_user_all
      by (try apply reader_text_length; try exact Hlen; lia).
    reflexivity.
  - apply Nat.leb_gt in E.
    rewrite copy_to_user_short
      by (try apply reader_text_length; try exact Hlen; lia).
    cbn [fst snd].
    replace (Z.of_nat (12 - writable buffer) =? 0) with false
      by (symmetry; apply Z.eqb_neq; lia).
    reflexivity.
Qed.

(** C3, where it fails: on a bus whose every transfer returns [-EIO], the
    three operations still return their byte counts (3, the request length
    and 12), not an error. *)
Lemma dead_bus_not_reported :
  send_result dead_bus [] 0x50 [0x70] < 0 /\
  fst (recv_result dead_bus [i2c_send 0x50 [0x70] (- EIO)] 0x50 1) < 0 /\
  fst (fst (output_read dead_bus the_board (output_file 0) user_on 64 0 0 [])) = 3 /\
  fst (output_write dead_bus the_board (output_file 0) user_on 2 0 []) = 2 /\
  fst (fst (reader_read dead_bus the_board (reader_file 0) user_on 64 0
              (repeat 0 8%nat) (repeat 0 12%nat) [])) = 12.
Proof. repeat split. Qed.

(** C3 as the code has it: what each operation returns and how many
    transfers it makes is fixed by the offset, the request length and the
    caller's buffer, for every kernel, so whatever the bus sends and
    receives return.  A state query returns 0 at a nonzero offset; at
    offset 0 it makes one send and one receive and returns 3, or [-EFAULT]
    when the caller's buffer takes fewer than 3 bytes.  A set request
    returns 0 for length 0 and [-EFAULT] when its first byte cannot be
    read, without a transfer; otherwise it makes one send, no receive, and
    returns its length.  A card query is like a state query, with 12 bytes
    and a receive of 8.  No transfer is repeated and no result of a
    transfer is looked at. *)
Theorem transfer_results_ignored (K : kernel) (device : expansion_dev) (f : file)
    (buffer : user_buffer) (count len f_pos : Z) (response0 : byte)
    (response8 data0 : list byte) (h : list event) :
  List.length data0 = 12%nat ->
  0 <= len < 2 ^ (bits_per_long K - 1) ->
  (fst (fst (output_read K device f buffer count f_pos response0 h))
   = (if f_pos =? 0
      then if (3 <=? writable buffer)%nat then 3 else - EFAULT
      else 0)
   /\ sends (snd (output_read K device f buffer count f_pos response0 h))
      = (if f_pos =? 0 then [[CInt.store_char (0x70 + channel_of_name f)]]
         else [])
   /\ receives (snd (output_read K device f buffer count f_pos response0 h))
      = (if f_pos =? 0 then [1%nat] else []))
  /\ (fst (output_write K device f buffer len f_pos h)
      = (if len =? 0 then 0
         else match content buffer with
              | [] => - EFAULT
              | _ :: _ => len
              end)
      /\ List.length (sends (snd (output_write K device f buffer len f_pos h)))
         = (if len =? 0 then 0%nat
            else match content buffer with
                 | [] => 0%nat
                 | _ :: _ => 1%nat
                 end)
      /\ receives (snd (output_write K device f buffer len f_pos h)) = [])
  /\ (fst (fst (reader_read K device f buffer count f_pos response8 data0 h))
      = (if f_pos =? 0
         then if (12 <=? writable buffer)%nat then 12 else - EFAULT
         else 0)
      /\ sends (snd (reader_read K device f buffer count f_pos response8 data0 h))
         = (if f_pos =? 0
            then [[CInt.store_char (0x10 + 0x08 * channel_of_name f)]]
            else [])
      /\ receives (snd (reader_read K device f buffer count f_pos
                          response8 data0 h))
         = (if f_pos =? 0 then [8%nat] else [])).
Proof.
  intros Hdata Hlen. split; [|split].
  - destruct (f_pos =? 0) eqn:Hpos.
    + apply Z.eqb_eq in Hpos. subst f_pos.
      destruct (output_read_transfers K device f buffer count h response0)
        as (-> & -> & _).
      rewrite output_read_return.
      destruct (3 <=? writable buffer)%nat; repeat split.
    + unfold output_read. rewrite Hpos. repeat split.
  - destruct (len =? 0) eqn:Hz.
    + apply Z.eqb_eq in Hz. subst len. repeat split.
    + apply Z.eqb_neq in Hz.
      destruct (content buffer) as [|b rest] eqn:Hc.
      * unfold output_write, copy_from_user_1.
        apply Z.eqb_neq in Hz. rewrite Hz, Hc. repeat split.
      * rewrite (output_write_transfers K device f buffer len h f_pos b rest Hz Hc).
        cbn [fst snd sends receives List.length].
        rewrite to_ssize_t_small by exact Hlen. repeat split.
  - destruct (f_pos =? 0) eqn:Hpos.
    + apply Z.eqb_eq in Hpos. subst f_pos.
      destruct (reader_read_transfers K device f buffer count h response8 data0)
        as (-> & -> & _).
      rewrite reader_read_return by exact Hdata.
      destruct (12 <=? writable buffer)%nat; repeat split.
    + unfold reader_read. rewrite Hpos. repeat split.
Qed.

Lemma transfer_results_ignored_witness :
  (fst (fst (output_read dead_bus the_board (output_file 0) user_on 64 0 0 []))
   = (if 0 =? 0
      then if (3 <=? writable user_on)%nat then 3 else - EFAULT
      else 0)
   /\ sends (snd (output_read dead_bus the_board (output_file 0) user_on 64 0 0 []))
      = (if 0 =? 0
         then [[CInt.store_char (0x70 + channel_of_name (output_file 0))]]
         else [])
   /\ receives (snd (output_read dead_bus the_board (output_file 0) user_on 64 0 0 []))
      = (if 0 =? 0 then [1%nat] else []))
  /\ (fst (output_write dead_bus the_board (output_file 0) user_on 2 0 [])
      = (if 2 =? 0 then 0
         else match content user_on with
              | [] => - EFAULT
              | _ :: _ => 2
              end)
      /\ List.length (sends (snd (output_write dead_bus the_board (output_file 0)
                                    user_on 2 0 [])))
         = (if 2 =? 0 then 0%nat
            else match content user_on with
                 | [] => 0%nat
                 | _ :: _ => 1%nat
                 end)
      /\ receives (snd (output_write dead_bus the_board (output_file 0)
                          user_on 2 0 [])) = [])
  /\ (fst (fst (reader_read dead_bus the_board (output_file 0) user_on 64 0
                  (repeat 0 8%nat) (repeat 0 12%nat) []))
      = (if 0 =? 0
         then if (12 <=? writable user_on)%nat then 12 else - EFAULT
         else 0)
      /\ sends (snd (reader_read dead_bus the_board (output_file 0) user_on 64 0
                       (repeat 0 8%nat) (repeat 0 12%nat) []))
         = (if 0 =? 0
            then [[CInt.store_char (0x10 + 0x08 * channel_of_name (output_file 0))]]
            else [])
      /\ receives (snd (reader_read dead_bus the_board (output_file 0) user_on 64 0
                          (repeat 0 8%nat) (repeat 0 12%nat) []))
         = (if 0 =? 0 then [8%nat] else [])).
Proof.
  apply (transfer_results_ignored dead_bus the_board (output_file 0) user_on
           64 2 0 0 (repeat 0 8%nat) (repeat 0 12%nat) []).
  - reflexivity.
  - simpl. lia.
Defined.

(** ** Rendering an output state *)

(** C5, where it fails: when the board answers the state query with the
    byte 2, whose low bit is 0, the text handed to the caller starts with
    '2' and a newline, not with '0' and a newline. *)
Lemma output_read_renders_two :
  copies (snd (output_read (answering false [2]) the_board (output_file 0)
                 user_on 64 0 0 []))
  = [[0x32; 10; 0]]
  /\ Z.testbit 2 0 = false
  /\ map (firstn 2)
       (copies (snd (output_read (answering false [2]) the_board (output_file 0)
                       user_on 64 0 0 [])))
     <> [state_text (Z.testbit 2 0)].
Proof.
  repeat split. vm_compute. discriminate.
Qed.

(** C5 as the code has it: the text handed to the caller starts with the
    character whose code is 0x30 plus the received byte (modulo 256) and a
    newline; no bit is masked.  It is '0' or '1' by the low bit when the
    byte is 0 or 1. *)
Theorem output_read_renders_sum (K : kernel) (device : expansion_dev) (f : file)
    (buffer : user_buffer) (count : Z) (response0 : byte) (h : list event)
    (a : Z) (n : nat) (r : Z) (b : byte) (rest : list byte) :
  (3 <= writable buffer)%nat ->
  In (i2c_recv a n r (b :: rest))
     (snd (output_read K device f buffer count 0 response0 h)) ->
  0 <= b < 256 ->
  map (firstn 2) (copies (snd (output_read K device f buffer count 0 response0 h)))
  = [[(0x30 + b) mod 256; 10]]
  /\ (b = 0 \/ b = 1 ->
      map (firstn 2)
        (copies (snd (output_read K device f buffer count 0 response0 h)))
      = [state_text (Z.testbit b 0)]).
Proof.
  intros Hw Hin Hb.
  assert (E : map (firstn 2)
                (copies (snd (output_read K device f buffer count 0 response0 h)))
              = [[(0x30 + b) mod 256; 10]]).
  { revert Hin. unfold output_read. change (0 =? 0) with true. cbv iota zeta.
    rewrite !bind_run.
    rewrite copy_to_user_all by (try reflexivity; lia).
    unfold i2c_master_send, i2c_master_recv. cbn [fst snd].
    match goal with
    | |- context [recv_result ?K ?h ?a ?n] =>
        destruct (recv_result K h a n) as [r' data']
    end.
    cbn [fst snd app].
    change (negb (0 =? 0)) with false. cbv iota. unfold ret.
    cbn [fst snd copies map].
    intros [Hin | [Hin | [Hin | []]]]; try discriminate Hin.
    injection Hin as _ _ _ ->.
    cbn [firstn overlay List.length skipn app nth bytes_of_string].
    rewrite store_char_add by (try exact Hb; vm_compute; split; congruence).
    reflexivity.
  }
  split; [exact E|].
  intros [-> | ->]; rewrite E; reflexivity.
Qed.

Lemma output_read_renders_sum_witness :
  map (firstn 2)
    (copies (snd (output_read (answering false [2]) the_board (output_file 0)
                    user_on 64 0 0 [])))
  = [[(0x30 + 2) mod 256; 10]]
  /\ (2 = 0 \/ 2 = 1 ->
      map (firstn 2)
        (copies (snd (output_read (answering false [2]) the_board (output_file 0)
                        user_on 64 0 0 [])))
      = [state_text (Z.testbit 2 0)]).
Proof.
  apply (output_read_renders_sum (answering false [2]) the_board (output_file 0)
           user_on 64 0 [] 0x50 1 1 2 []).
  - simpl. lia.
  - simpl. auto.
  - lia.
Defined.

(** * Further properties *)

(** ** Attach and detach as a whole *)

(** X1: on a recognised client [probe] sets the client data in every case
    and returns 0 exactly when the attach is complete: either it returns 0
    and the five channels are registered, outputs first, under the names
    /exp0/s0 ... /exp0/w1, or it returns a nonzero code and no channel is
    registered. *)
Theorem probe_zero_iff_attached (K : kernel) (c : i2c_client) (error0 : Z)
    (h : list event) (r : Z) (d : option expansion_dev) (evs : list event) :
  addr c = 0x50 ->
  probe K c error0 h = (r, d, evs) ->
  d = Some (board c)
  /\ ((r = 0 /\ evs = attach_trace (board c)
       /\ registered_after [] evs = all_channels)
      \/ (r <> 0 /\ registered_after [] evs = [])).
Proof.
  intros Ha Hrun.
  destruct (probe_cases K c error0 h Ha)
    as [E | [(k & e & Hk & He & E) | (k & e & Hk & He & E)]];
    rewrite E in Hrun; injection Hrun as <- <- <-; (split; [reflexivity|]).
  - left. repeat split.
  - right. split; [exact He|].
    unfold OUTPUTS_COUNT in Hk. apply Z.eqb_neq in He.
    destruct k as [|[|[|k]]]; [| | |lia]; simpl; rewrite He; reflexivity.
  - right. split; [exact He|].
    unfold READERS_COUNT in Hk. apply Z.eqb_neq in He.
    destruct k as [|[|k]]; [| |lia]; simpl; rewrite He; reflexivity.
Qed.

Lemma probe_zero_iff_attached_witness :
  Some the_board = Some (board the_client)
  /\ ((- ENOMEM = 0
       /\ snd (probe (refusing (Reader 1)) the_client 7 [])
          = attach_trace (board the_client)
       /\ registered_after [] (snd (probe (refusing (Reader 1)) the_client 7 []))
          = all_channels)
      \/ (- ENOMEM <> 0
          /\ registered_after [] (snd (probe (refusing (Reader 1)) the_client 7 []))
             = [])).
Proof.
  apply (probe_zero_iff_attached (refusing (Reader 1)) the_client 7 []);
    reflexivity.
Defined.

(** X2: [probe] never talks to the board and never writes to user memory:
    whatever the client and the kernel, its run holds no bus send, no bus
    receive and no user copy.  A client is accepted on its configured
    address alone. *)
Theorem probe_never_uses_bus (K : kernel) (c : i2c_client) (error0 : Z)
    (h : list event) :
  sends (snd (probe K c error0 h)) = []
  /\ receives (snd (probe K c error0 h)) = []
  /\ copies (snd (probe K c error0 h)) = [].
Proof.
  destruct (Z.eq_dec (addr c) 0x50) as [Ha | Ha].
  - destruct (probe_cases K c error0 h Ha)
      as [E | [(k & e & Hk & He & E) | (k & e & Hk & He & E)]];
      rewrite E; cbn [snd].
    + repeat split.
    + unfold OUTPUTS_COUNT in Hk.
      destruct k as [|[|[|k]]]; [| | |lia]; repeat split.
    + unfold READERS_COUNT in Hk.
      destruct k as [|[|k]]; [| |lia]; repeat split.
  - rewrite (probe_unrecognised K c error0 h Ha). repeat split.
Qed.

(** X3: attach then detach.  When [probe] returned 0, running [remove] on
    the device it set leaves no channel registered, and [remove]
    deregisters exactly the channels [probe] registered, in the same
    order. *)
Theorem probe_then_remove (K : kernel) (c : i2c_client) (error0 : Z)
    (h : list event) (device : expansion_dev) (evs : list event) :
  addr c = 0x50 ->
  probe K c error0 h = (0, Some device, evs) ->
  registered_after [] (evs ++ snd (remove device (h ++ evs))) = []
  /\ deregistrations (snd (remove device (h ++ evs)))
     = map fst (registrations evs).
Proof.
  intros Ha Hrun.
  destruct (probe_cases K c error0 h Ha)
    as [E | [(k & e & Hk & He & E) | (k & e & Hk & He & E)]];
    rewrite E in Hrun; inversion Hrun; subst;
    try (exfalso; apply He; reflexivity).
  split; reflexivity.
Qed.

Lemma probe_then_remove_witness :
  registered_after []
    (snd (probe (answering false [1]) the_client 7 [])
     ++ snd (remove the_board ([] ++ snd (probe (answering false [1]) the_client 7 []))))
  = []
  /\ deregistrations
       (snd (remove the_board ([] ++ snd (probe (answering false [1]) the_client 7 []))))
     = map fst (registrations (snd (probe (answering false [1]) the_client 7 []))).
Proof.
  apply (probe_then_remove (answering false [1]) the_client 7 [] the_board);
    reflexivity.
Defined.

(** X4: what a refused registration logs.  For output [k] the message
    names /exp0/s[k].  For a reader the message is built from the variable
    of the first loop, which is 3 by then, so it names /exp0/w3 whichever
    reader was refused. *)
Theorem probe_failure_message (K : kernel) (c : i2c_client) (error0 : Z)
    (h : list event) (ch : channel) (devname : string)
    (fops : file_operations) (e : Z) :
  In (misc_reg ch devname fops e) (snd (probe K c error0 h)) ->
  e <> 0 ->
  match ch with
  | Output k =>
      In (printk_err ("No se pudo registrar el dispositivo /exp0/s"
                      ++ decimal (Z.of_nat k))%string)
         (snd (probe K c error0 h))
  | Reader _ =>
      In (printk_err "No se pudo registrar el dispositivo /exp0/w3")
         (snd (probe K c error0 h))
  end.
Proof.
  intros Hin He.
  destruct (Z.eq_dec (addr c) 0x50) as [Ha | Ha].
  - destruct (probe_cases K c error0 h Ha)
      as [E | [(k & e' & Hk & He' & E) | (k & e' & Hk & He' & E)]];
      rewrite E in *; cbn [snd] in *.
    + exfalso. trace_cases Hin; apply He; reflexivity.
    + unfold OUTPUTS_COUNT in Hk.
      destruct k as [|[|[|k]]]; [| | |lia];
        trace_cases Hin; try (exfalso; apply He; reflexivity);
        simpl; auto.
    + unfold READERS_COUNT in Hk.
      destruct k as [|[|k]]; [| |lia];
        trace_cases Hin; try (exfalso; apply He; reflexivity);
        simpl; auto 10.
  - rewrite (probe_unrecognised K c error0 h Ha) in Hin. trace_cases Hin.
Qed.

Lemma probe_failure_message_witness :
  In (printk_err "No se pudo registrar el dispositivo /exp0/w3")
     (snd (probe (refusing (Reader 0)) the_client 7 [])).
Proof.
  apply (probe_failure_message (refusing (Reader 0)) the_client 7 []
           (Reader 0) (reader_devname the_board 0) readers_fops (- ENOMEM)).
  - simpl. auto.
  - discriminate.
Defined.

(** ** Reads, offsets and faults *)

(** X5: a read is one shot.  A state query at offset 0 into a buffer with
    room returns 3 and moves the offset to 3, whatever count the caller
    asked for; the next read on the same file, at that offset, returns 0
    and does nothing.  The two reads together make one send, one receive
    and one copy.  A card query does the same with 12. *)
Theorem read_once_then_eof (K : kernel) (device : expansion_dev) (f : file)
    (buffer : user_buffer) (count count' : Z) (response0 response0' : byte)
    (response8 response8' data0 data0' : list byte) (h : list event) :
  (12 <= writable buffer)%nat ->
  List.length data0 = 12%nat ->
  let twice_output :=
    (r1 <- output_read K device f buffer count 0 response0 ;;
     r2 <- output_read K device f buffer count' (snd r1) response0' ;;
     ret (r1, r2)) h in
  let twice_reader :=
    (r1 <- reader_read K device f buffer count 0 response8 data0 ;;
     r2 <- reader_read K device f buffer count' (snd r1) response8' data0' ;;
     ret (r1, r2)) h in
  (fst twice_output = ((3, 3), (0, 3))
   /\ List.length (sends (snd twice_output)) = 1%nat
   /\ receives (snd twice_output) = [1%nat]
   /\ List.length (copies (snd twice_output)) = 1%nat)
  /\ (fst twice_reader = ((12, 12), (0, 12))
      /\ List.length (sends (snd twice_reader)) = 1%nat
      /\ receives (snd twice_reader) = [8%nat]
      /\ List.length (copies (snd twice_reader)) = 1%nat).
Proof.
  intros Hw Hlen twice_output twice_reader.
  assert (Eo : fst (output_read K device f buffer count 0 response0 h) = (3, 3)).
  { unfold output_read. change (0 =? 0) with true. cbv iota zeta.
    rewrite !bind_run, copy_to_user_all by (try reflexivity; lia).
    reflexivity. }
  assert (Er : fst (reader_read K device f buffer count 0 response8 data0 h)
               = (12, 12)).
  { unfold reader_read. change (0 =? 0) with true. cbv iota zeta.
    rewrite !bind_run, copy_to_user_all;
      [reflexivity | lia | apply reader_text_length; exact Hlen]. }
  destruct (output_read_transfers K device f buffer count h response0)
    as (So & Ro & Co).
  destruct (reader_read_transfers K device f buffer count h response8 data0)
    as (Sr & Rr & Cr).
  cbv zeta in So, Ro, Co, Sr, Rr, Cr.
  split.
  - subst twice_output. rewrite bind_run, Eo. cbn [fst snd].
    rewrite bind_run.
    change (output_read K device f buffer count' 3 response0')
      with (@ret (Z * Z) (0, 3)).
    unfold ret at 1 2 3 4 5 6 7 8. cbn [fst snd]. rewrite !app_nil_r.
    rewrite So, Ro. repeat split. exact Co.
  - subst twice_reader. rewrite bind_run, Er. cbn [fst snd].
    rewrite bind_run.
    change (reader_read K device f buffer count' 12 response8' data0')
      with (@ret (Z * Z) (0, 12)).
    unfold ret at 1 2 3 4 5 6 7 8. cbn [fst snd]. rewrite !app_nil_r.
    rewrite Sr, Rr. repeat split. exact Cr.
Qed.

Lemma read_once_then_eof_witness :
  let twice_output :=
    (r1 <- output_read dead_bus the_board (output_file 0) user_on 0 0 0 ;;
     r2 <- output_read dead_bus the_board (output_file 0) user_on 64 (snd r1) 0 ;;
     ret (r1, r2)) [] in
  let twice_reader :=
    (r1 <- reader_read dead_bus the_board (output_file 0) user_on 0 0
             (repeat 0 8%nat) (repeat 0 12%nat) ;;
     r2 <- reader_read dead_bus the_board (output_file 0) user_on 64 (snd r1)
             (repeat 0 8%nat) (repeat 0 12%nat) ;;
     ret (r1, r2)) [] in
  (fst twice_output = ((3, 3), (0, 3))
   /\ List.length (sends (snd twice_output)) = 1%nat
   /\ receives (snd twice_output) = [1%nat]
   /\ List.length (copies (snd twice_output)) = 1%nat)
  /\ (fst twice_reader = ((12, 12), (0, 12))
      /\ List.length (sends (snd twice_reader)) = 1%nat
      /\ receives (snd twice_reader) = [8%nat]
      /\ List.length (copies (snd twice_reader)) = 1%nat).
Proof.
  apply (read_once_then_eof dead_bus the_board (output_file 0) user_on 0 64 0 0
           (repeat 0 8%nat) (repeat 0 8%nat) (repeat 0 12%nat) (repeat 0 12%nat) []).
  - simpl. lia.
  - reflexivity.
Defined.

(** X6: a state query whose caller buffer has room for fewer than 3 bytes
    returns [-EFAULT] and leaves the offset at 0, but only after the bus
    transaction: the address was sent, the answer received, and the bytes
    that fit were copied. *)
Theorem output_read_fault (K : kernel) (device : expansion_dev) (f : file)
    (buffer : user_buffer) (count : Z) (response0 : byte) (h : list event) :
  (writable buffer < 3)%nat ->
  fst (output_read K device f buffer count 0 response0 h) = (- EFAULT, 0)
  /\ List.length (sends (snd (output_read K device f buffer count 0 response0 h)))
     = 1%nat
  /\ receives (snd (output_read K device f buffer count 0 response0 h)) = [1%nat]
  /\ map (@List.length byte)
       (copies (snd (output_read K device f buffer count 0 response0 h)))
     = [writable buffer].
Proof.
  intros Hw.
  destruct (output_read_transfers K device f buffer count h response0)
    as (-> & -> & _).
  unfold output_read. change (0 =? 0) with true. cbv iota zeta.
  rewrite !bind_run, copy_to_user_short by (try reflexivity; lia).
  unfold i2c_master_send, i2c_master_recv. cbn [fst snd].
  match goal with
  | |- context [recv_result ?K ?h ?a ?n] => destruct (recv_result K h a n)
  end.
  cbn [fst snd app copies map].
  replace (Z.of_nat (3 - writable buffer) =? 0) with false
    by (symmetry; apply Z.eqb_neq; lia).
  cbn [negb]. unfold ret. cbn [fst snd copies map].
  rewrite length_firstn, Nat.min_l by (simpl; lia). repeat split.
Qed.

Lemma output_read_fault_witness :
  fst (output_read (answering false [1]) the_board (output_file 0)
         {| content := []; writable := 2 |} 64 0 0 [])
  = (- EFAULT, 0)
  /\ List.length (sends (snd (output_read (answering false [1]) the_board
                                (output_file 0) {| content := []; writable := 2 |}
                                64 0 0 [])))
     = 1%nat
  /\ receives (snd (output_read (answering false [1]) the_board (output_file 0)
                      {| content := []; writable := 2 |} 64 0 0 []))
     = [1%nat]
  /\ map (@List.length byte)
       (copies (snd (output_read (answering false [1]) the_board (output_file 0)
                       {| content := []; writable := 2 |} 64 0 0 [])))
     = [writable {| content := []; writable := 2 |}].
Proof.
  apply (output_read_fault (answering false [1]) the_board (output_file 0)
           {| content := []; writable := 2 |} 64 0 []).
  simpl. lia.
Defined.

(** X7: a card query whose caller buffer has room for fewer than 12 bytes
    returns [-EFAULT] and leaves the offset at 0, after the bus
    transaction and a copy of the bytes that fit; 12 bytes are needed
    however short the number is. *)
Theorem reader_read_fault (K : kernel) (device : expansion_dev) (f : file)
    (buffer : user_buffer) (count : Z) (response8 data0 : list byte)
    (h : list event) :
  (writable buffer < 12)%nat ->
  List.length data0 = 12%nat ->
  fst (reader_read K device f buffer count 0 response8 data0 h) = (- EFAULT, 0)
  /\ List.length (sends (snd (reader_read K device f buffer count 0
                                response8 data0 h)))
     = 1%nat
  /\ receives (snd (reader_read K device f buffer count 0 response8 data0 h))
     = [8%nat]
  /\ map (@List.length byte)
       (copies (snd (reader_read K device f buffer count 0 response8 data0 h)))
     = [writable buffer].
Proof.
  intros Hw Hlen.
  destruct (reader_read_transfers K device f buffer count h response8 data0)
    as (-> & -> & _).
  unfold reader_read. change (0 =? 0) with true. cbv iota zeta.
  rewrite !bind_run, copy_to_user_short
    by (try apply reader_text_length; try exact Hlen; lia).
  unfold i2c_master_send, i2c_master_recv. cbn [fst snd].
  match goal with
  | |- context [recv_result ?K ?h ?a ?n] => destruct (recv_result K h a n)
  end.
  cbn [fst snd app copies map].
  replace (Z.of_nat (12 - writable buffer) =? 0) with false
    by (symmetry; apply Z.eqb_neq; lia).
  cbn [negb]. unfold ret. cbn [fst snd copies map].
  rewrite length_firstn, reader_text_length by exact Hlen.
  rewrite Nat.min_l by lia. repeat split.
Qed.

Lemma reader_read_fault_witness :
  fst (reader_read (answering false [1; 2; 3]) the_board (reader_file 0)
         {| content := []; writable := 7 |} 64 0 (repeat 0 8%nat)
         (repeat 0 12%nat) [])
  = (- EFAULT, 0)
  /\ List.length (sends (snd (reader_read (answering false [1; 2; 3]) the_board
                                (reader_file 0) {| content := []; writable := 7 |}
                                64 0 (repeat 0 8%nat) (repeat 0 12%nat) [])))
     = 1%nat
  /\ receives (snd (reader_read (answering false [1; 2; 3]) the_board
                      (reader_file 0) {| content := []; writable := 7 |}
                      64 0 (repeat 0 8%nat) (repeat 0 12%nat) []))
     = [8%nat]
  /\ map (@List.length byte)
       (copies (snd (reader_read (answering false [1; 2; 3]) the_board
                       (reader_file 0) {| content := []; writable := 7 |}
                       64 0 (repeat 0 8%nat) (repeat 0 12%nat) [])))
     = [writable {| content := []; writable := 7 |}].
Proof.
  apply (reader_read_fault (answering false [1; 2; 3]) the_board (reader_file 0)
           {| content := []; writable := 7 |} 64 (repeat 0 8%nat)
           (repeat 0 12%nat) []).
  - simpl. lia.
  - reflexivity.
Defined.

(** ** The text of a number *)

Lemma string_of_uint_length (d : Decimal.uint) :
  String.length (NilEmpty.string_of_uint d) = Decimal.nb_digits d.
Proof. induction d; simpl; congruence. Qed.

Lemma usize_nb_digits (d : Decimal.uint) :
  DecimalPos.Unsigned.usize d = N.of_nat (Decimal.nb_digits d).
Proof.
  induction d; cbn [DecimalPos.Unsigned.usize Decimal.nb_digits];
    rewrite ?IHd, ?Nnat.Nat2N.inj_succ; reflexivity.
Qed.

(** The digits of a positive number carry no leading zero. *)
Lemma to_uint_normal (p : positive) :
  Decimal.unorm (Pos.to_uint p) = Pos.to_uint p.
Proof.
  rewrite <- (DecimalPos.Unsigned.to_of (Pos.to_uint p)),
    DecimalPos.Unsigned.of_to.
  reflexivity.
Qed.

(** A positive number written with [n] digits is at least [10 ^ (n - 1)]. *)
Lemma pos_digits_bound (p : positive) :
  (10 ^ N.of_nat (Decimal.nb_digits (Pos.to_uint p) - 1) <= Npos p)%N.
Proof.
  pose proof (to_uint_normal p) as Hn.
  pose proof (DecimalPos.Unsigned.to_uint_nonzero p) as Hz.
  pose proof (DecimalPos.Unsigned.to_uint_nonnil p) as Hnil.
  pose proof (DecimalPos.Unsigned.of_to p) as Hv.
  rewrite DecimalPos.Unsigned.of_uint_alt in Hv.
  destruct (Pos.to_uint p) as [|d|d|d|d|d|d|d|d|d|d] eqn:E;
    [contradiction | | | | | | | | | | ].
  1: { exfalso.
       assert (Hd : d <> Decimal.Nil)
         by (intros ->; apply Hz; reflexivity).
       pose proof (DecimalFacts.nb_digits_unorm d Hd) as Hle.
       change (Decimal.unorm (Decimal.D0 d)) with (Decimal.unorm d) in Hn.
       rewrite Hn in Hle. cbn [Decimal.nb_digits] in Hle. lia. }
  all: unfold Decimal.rev in Hv; cbn [Decimal.revapp] in Hv;
    rewrite DecimalPos.Unsigned.of_lu_revapp in Hv;
    cbn [DecimalPos.Unsigned.of_lu] in Hv;
    cbn [Decimal.nb_digits]; rewrite Nat.sub_succ, Nat.sub_0_r, <- usize_nb_digits;
    rewrite <- Hv; nia.
Qed.

(** [%d] prints a number below [10 ^ n] with at most [n] characters. *)
Lemma decimal_length (v : Z) (n : nat) :
  0 <= v < 10 ^ Z.of_nat n -> (1 <= n)%nat ->
  (String.length (decimal v) <= n)%nat.
Proof.
  intros Hv Hn. unfold decimal.
  destruct v as [|p|p]; [simpl; lia | | lia].
  cbn [Z.to_int NilZero.string_of_int].
  pose proof (DecimalPos.Unsigned.to_uint_nonnil p) as Hnil.
  unfold NilZero.string_of_uint.
  destruct (Pos.to_uint p) eqn:E; [contradiction | ..];
    rewrite <- E; rewrite string_of_uint_length;
    pose proof (pos_digits_bound p) as Hb;
    (destruct (Nat.le_gt_cases (Decimal.nb_digits (Pos.to_uint p)) n) as [Hl | Hg];
     [exact Hl | exfalso]);
    assert (Hpow : (10 ^ N.of_nat n
                    <= 10 ^ N.of_nat (Decimal.nb_digits (Pos.to_uint p) - 1))%N)
      by (apply N.pow_le_mono_r; lia);
    assert (Hz : Z.of_N (10 ^ N.of_nat n) = 10 ^ Z.of_nat n)
      by (rewrite N2Z.inj_pow, nat_N_Z; reflexivity);
    lia.
Qed.

Lemma bytes_of_string_app (s t : string) :
  bytes_of_string (s ++ t) = bytes_of_string s ++ bytes_of_string t.
Proof. induction s as [|a s IH]; simpl; [|rewrite IH]; reflexivity. Qed.

Lemma bytes_of_string_length (s : string) :
  List.length (bytes_of_string s) = String.length s.
Proof. induction s as [|a s IH]; simpl; [|rewrite IH]; reflexivity. Qed.

(** ** What a card query hands to the caller *)

(** The array [reader_read] copies when the board answered with the bytes
    [b0 b1 b2 ...] and plain [char] is unsigned: the decimal text of the
    little-endian value, a newline, a NUL, and what the array held before
    [snprintf] from there on. *)
Lemma reader_read_copy (K : kernel) (device : expansion_dev) (f : file)
    (buffer : user_buffer) (count : Z) (response8 data0 : list byte)
    (h : list event) (a : Z) (n : nat) (r : Z) (b0 b1 b2 : byte)
    (rest : list byte) :
  char_signed K = false ->
  (12 <= writable buffer)%nat ->
  List.length response8 = 8%nat ->
  List.length data0 = 12%nat ->
  In (i2c_recv a n r (b0 :: b1 :: b2 :: rest))
     (snd (reader_read K device f buffer count 0 response8 data0 h)) ->
  0 <= b0 < 256 -> 0 <= b1 < 256 -> 0 <= b2 < 256 ->
  let text :=
    bytes_of_string (decimal (little_endian b0 b1 b2) ++ String "010" "")%string in
  copies (snd (reader_read K device f buffer count 0 response8 data0 h))
  = [text ++ 0 :: skipn (S (List.length text)) (memset data0 0 8)]
  /\ (List.length text <= 9)%nat.
Proof.
  intros Hs Hw Hr8 Hd0 Hin H0 H1 H2 text.
  assert (Hlen : (List.length text <= 9)%nat).
  { subst text. rewrite bytes_of_string_app, length_app, bytes_of_string_length.
    pose proof (decimal_length (little_endian b0 b1 b2) 8) as Hd.
    unfold little_endian in *. cbn [bytes_of_string List.length].
    assert (String.length (decimal (b0 + 256 * b1 + 65536 * b2)) <= 8)%nat
      by (apply Hd; [change (10 ^ Z.of_nat 8) with 100000000|]; lia).
    lia. }
  split; [|exact Hlen].
  revert Hin. unfold reader_read. change (0 =? 0) with true. cbv iota zeta.
  rewrite !bind_run.
  rewrite copy_to_user_all by (try apply reader_text_length; try exact Hd0; lia).
  unfold i2c_master_send, i2c_master_recv. cbn [fst snd].
  match goal with
  | |- context [recv_result ?K ?h ?a ?n] =>
      destruct (recv_result K h a n) as [r' data']
  end.
  cbn [fst snd app].
  change (negb (0 =? 0)) with false. cbv iota. unfold ret.
  cbn [fst snd copies].
  intros [Hin | [Hin | [Hin | []]]]; try discriminate Hin.
  injection Hin as _ _ _ ->.
  do 4 (destruct response8 as [|? response8]; [discriminate Hr8|]).
  unfold overlay. cbn [firstn List.length app].
  rewrite Hs.
  rewrite card_number_little_endian by assumption.
  fold (little_endian b0 b1 b2).
  assert (Hint : CInt.to_int (little_endian b0 b1 b2) = little_endian b0 b1 b2).
  { unfold CInt.to_int, little_endian.
    change (2 ^ 31) with 2147483648. change (2 ^ 32) with 4294967296.
    rewrite Z.mod_small by lia. lia. }
  rewrite Hint. unfold snprintf_bytes. cbn [Nat.sub].
  rewrite firstn_all2 by (fold text; lia).
  reflexivity.
Qed.

Lemma copies_In (copied : list byte) (evs : list event) :
  In (user_copy copied) evs -> In copied (copies evs).
Proof.
  induction evs as [|e evs IH]; [intros []|].
  intros [-> | Hl]; [left; reflexivity|].
  destruct e; simpl; auto.
Qed.

(** X8: a card query renders the number in full.  Where plain [char] is
    unsigned, when the board answers with the bytes [b0 b1 b2 ...] the
    caller receives the decimal text of [b0 + 256 b1 + 65536 b2], a newline
    and a NUL, never cut short, and the call returns 12. *)
Theorem reader_read_renders_decimal (K : kernel) (device : expansion_dev)
    (f : file) (buffer : user_buffer) (count : Z) (response8 data0 : list byte)
    (h : list event) (a : Z) (n : nat) (r : Z) (b0 b1 b2 : byte)
    (rest copied : list byte) :
  char_signed K = false ->
  (12 <= writable buffer)%nat ->
  List.length response8 = 8%nat ->
  List.length data0 = 12%nat ->
  In (i2c_recv a n r (b0 :: b1 :: b2 :: rest))
     (snd (reader_read K device f buffer count 0 response8 data0 h)) ->
  In (user_copy copied)
     (snd (reader_read K device f buffer count 0 response8 data0 h)) ->
  0 <= b0 < 256 -> 0 <= b1 < 256 -> 0 <= b2 < 256 ->
  fst (reader_read K device f buffer count 0 response8 data0 h) = (12, 12)
  /\ List.length copied = 12%nat
  /\ exists tail,
       copied
       = bytes_of_string (decimal (little_endian b0 b1 b2)) ++ 10 :: 0 :: tail.
Proof.
  intros Hs Hw Hr8 Hd0 Hin Hcopy H0 H1 H2.
  destruct (reader_read_copy K device f buffer count response8 data0 h a n r
              b0 b1 b2 rest Hs Hw Hr8 Hd0 Hin H0 H1 H2) as [Hc Hlen].
  cbv zeta in Hc, Hlen.
  apply copies_In in Hcopy. rewrite Hc in Hcopy.
  destruct Hcopy as [<- | []].
  split; [|split].
  - unfold reader_read. change (0 =? 0) with true. cbv iota zeta.
    rewrite !bind_run, copy_to_user_all;
      [reflexivity | lia | apply reader_text_length; exact Hd0].
  - rewrite length_app. cbn [List.length]. rewrite length_skipn, memset_length.
    lia.
  - eexists. rewrite bytes_of_string_app, <- app_assoc. reflexivity.
Qed.

Lemma reader_read_renders_decimal_witness :
  fst (reader_read (answering false [1; 2; 3; 0; 0; 0; 0; 0]) the_board
         (reader_file 1) user_on 64 0 (repeat 7 8%nat) (repeat 7 12%nat) [])
  = (12, 12)
  /\ List.length (bytes_of_string "197121" ++ [10; 0; 7; 7; 7; 7]) = 12%nat
  /\ exists tail,
       bytes_of_string "197121" ++ [10; 0; 7; 7; 7; 7]
       = bytes_of_string (decimal (little_endian 1 2 3)) ++ 10 :: 0 :: tail.
Proof.
  apply (reader_read_renders_decimal (answering false [1; 2; 3; 0; 0; 0; 0; 0])
           the_board (reader_file 1) user_on 64 (repeat 7 8%nat)
           (repeat 7 12%nat) [] 0x50 8 8 1 2 3 [0; 0; 0; 0; 0]);
    try reflexivity; try lia.
  - simpl. lia.
  - simpl. auto.
  - simpl. auto.
Defined.

(** Past a short text and its terminator the array is what it was. *)
Lemma skipn_past_text {A : Type} (text dst : list A) (z : A) (n : nat) :
  (S (List.length text) <= n)%nat ->
  skipn n (text ++ z :: skipn (S (List.length text)) dst) = skipn n dst.
Proof.
  intros Hlen.
  assert (E : skipn (S (List.length text))
                (text ++ z :: skipn (S (List.length text)) dst)
              = skipn (S (List.length text)) dst).
  { change (text ++ z :: skipn (S (List.length text)) dst)
      with (text ++ [z] ++ skipn (S (List.length text)) dst).
    rewrite app_assoc.
    replace (S (List.length text)) with (List.length (text ++ [z])) at 1
      by (rewrite length_app; simpl; lia).
    rewrite skipn_app, skipn_all, Nat.sub_diag. reflexivity. }
  replace n with ((n - S (List.length text)) + S (List.length text))%nat by lia.
  rewrite <- !skipn_skipn, E. reflexivity.
Qed.

(** [memset] over the first [n] bytes leaves the rest. *)
Lemma skipn_memset (dst : list byte) (c : byte) (n : nat) :
  (n <= List.length dst)%nat -> skipn n (memset dst c n) = skipn n dst.
Proof.
  intros Hn. unfold memset.
  rewrite skipn_app, repeat_length, Nat.min_l by exact Hn.
  rewrite skipn_all2 by (rewrite repeat_length; lia).
  rewrite Nat.sub_diag. reflexivity.
Qed.

(** X9: a card query hands kernel stack bytes to the caller.  Where plain
    [char] is unsigned and the number is below 1000000, the last four of
    the 12 bytes copied are the bytes the uninitialised array [data] held
    at indices 8 to 11: [memset] clears only the first 8 and the text with
    its NUL ends before them. *)
Theorem reader_read_copies_stale_bytes (K : kernel) (device : expansion_dev)
    (f : file) (buffer : user_buffer) (count : Z) (response8 data0 : list byte)
    (h : list event) (a : Z) (n : nat) (r : Z) (b0 b1 b2 : byte)
    (rest copied : list byte) :
  char_signed K = false ->
  (12 <= writable buffer)%nat ->
  List.length response8 = 8%nat ->
  List.length data0 = 12%nat ->
  In (i2c_recv a n r (b0 :: b1 :: b2 :: rest))
     (snd (reader_read K device f buffer count 0 response8 data0 h)) ->
  In (user_copy copied)
     (snd (reader_read K device f buffer count 0 response8 data0 h)) ->
  0 <= b0 < 256 -> 0 <= b1 < 256 -> 0 <= b2 < 256 ->
  little_endian b0 b1 b2 < 1000000 ->
  skipn 8 copied = skipn 8 data0.
Proof.
  intros Hs Hw Hr8 Hd0 Hin Hcopy H0 H1 H2 Hv.
  destruct (reader_read_copy K device f buffer count response8 data0 h a n r
              b0 b1 b2 rest Hs Hw Hr8 Hd0 Hin H0 H1 H2) as [Hc _].
  cbv zeta in Hc.
  apply copies_In in Hcopy. rewrite Hc in Hcopy.
  destruct Hcopy as [<- | []].
  set (text := bytes_of_string
                 (decimal (little_endian b0 b1 b2) ++ String "010" "")%string).
  assert (Hlen : (List.length text <= 7)%nat).
  { subst text. rewrite bytes_of_string_app, length_app, bytes_of_string_length.
    pose proof (decimal_length (little_endian b0 b1 b2) 6) as Hd.
    cbn [bytes_of_string List.length].
    assert (String.length (decimal (little_endian b0 b1 b2)) <= 6)%nat
      by (apply Hd; [change (10 ^ Z.of_nat 6) with 1000000|];
          unfold little_endian in *; lia).
    lia. }
  rewrite skipn_past_text by lia.
  apply skipn_memset. lia.
Qed.

Lemma reader_read_copies_stale_bytes_witness :
  skipn 8 (bytes_of_string "197121" ++ [10; 0; 7; 7; 7; 7])
  = skipn 8 (repeat 7 12%nat).
Proof.
  apply (reader_read_copies_stale_bytes
           (answering false [1; 2; 3; 0; 0; 0; 0; 0])
           the_board (reader_file 1) user_on 64 (repeat 7 8%nat)
           (repeat 7 12%nat) [] 0x50 8 8 1 2 3 [0; 0; 0; 0; 0]);
    try reflexivity; try lia.
  - simpl. lia.
  - simpl. auto.
  - simpl. auto.
Defined.

(** ** A receive that delivers nothing *)

(** X10: when the receive of a state query puts no byte in the buffer, as
    a failed transfer does, the text handed to the caller is built from
    what the uninitialised local [response] held: its first character is
    0x30 plus that stale byte, and the call still returns 3. *)
Theorem output_read_stale_response (K : kernel) (device : expansion_dev)
    (f : file) (buffer : user_buffer) (count : Z) (response0 : byte)
    (h : list event) (a : Z) (n : nat) (r : Z) :
  (3 <= writable buffer)%nat ->
  0 <= response0 < 256 ->
  In (i2c_recv a n r [])
     (snd (output_read K device f buffer count 0 response0 h)) ->
  fst (output_read K device f buffer count 0 response0 h) = (3, 3)
  /\ copies (snd (output_read K device f buffer count 0 response0 h))
     = [[(0x30 + response0) mod 256; 10; 0]].
Proof.
  intros Hw Hr. unfold output_read. change (0 =? 0) with true. cbv iota zeta.
  rewrite !bind_run.
  rewrite copy_to_user_all by (try reflexivity; lia).
  unfold i2c_master_send, i2c_master_recv. cbn [fst snd].
  match goal with
  | |- context [recv_result ?K ?h ?a ?n] =>
      destruct (recv_result K h a n) as [r' data']
  end.
  cbn [fst snd app].
  change (negb (0 =? 0)) with false. cbv iota. unfold ret.
  cbn [fst snd copies].
  intros [Hin | [Hin | [Hin | []]]]; try discriminate Hin.
  injection Hin as _ _ _ ->.
  split; [reflexivity|].
  unfold overlay.
  cbn [firstn List.length skipn app nth bytes_of_string].
  rewrite store_char_add by (try exact Hr; vm_compute; split; congruence).
  reflexivity.
Qed.

Lemma output_read_stale_response_witness :
  fst (output_read dead_bus the_board (output_file 0) user_on 64 0 7 []) = (3, 3)
  /\ copies (snd (output_read dead_bus the_board (output_file 0) user_on 64 0 7 []))
     = [[(0x30 + 7) mod 256; 10; 0]].
Proof.
  apply (output_read_stale_response dead_bus the_board (output_file 0) user_on
           64 7 [] 0x50 1 (- EIO)).
  - simpl. lia.
  - lia.
  - simpl. auto.
Defined.

(** ** Set requests *)

(** X11: a set request of nonzero length whose first byte cannot be read
    returns [-EFAULT] and sends nothing. *)
Theorem output_write_fault (K : kernel) (device : expansion_dev) (f : file)
    (buffer : user_buffer) (len f_pos : Z) (h : list event) :
  len <> 0 ->
  content buffer = [] ->
  output_write K device f buffer len f_pos h = (- EFAULT, []).
Proof.
  intros Hlen Hc. unfold output_write, copy_from_user_1.
  apply Z.eqb_neq in Hlen. rewrite Hlen, Hc. reflexivity.
Qed.

Lemma output_write_fault_witness :
  output_write (answering false [1]) the_board (output_file 0)
    {| content := []; writable := 0 |} 5 0 []
  = (- EFAULT, []).
Proof.
  apply (output_write_fault (answering false [1]) the_board (output_file 0)
           {| content := []; writable := 0 |} 5 0 []).
  - discriminate.
  - reflexivity.
Defined.

(** X12: a set request is decided by its first byte alone.  For every
    length from 1 up to the largest [ssize_t], whatever the rest of the
    text, the platform and the result of the send, the request returns its
    full length and makes one send of two bytes: 0x71 when the first byte
    is '1' and 0x70 otherwise, then the channel number of the file. *)
Theorem output_write_first_byte (K : kernel) (device : expansion_dev) (f : file)
    (buffer : user_buffer) (len f_pos : Z) (h : list event) (b : byte)
    (rest : list byte) :
  0 < len < 2 ^ (bits_per_long K - 1) ->
  content buffer = b :: rest ->
  0 <= b < 256 ->
  fst (output_write K device f buffer len f_pos h) = len
  /\ sends (snd (output_write K device f buffer len f_pos h))
     = [[if b =? 0x31 then 0x71 else 0x70; channel_of_name f mod 256]]
  /\ List.length (snd (output_write K device f buffer len f_pos h)) = 1%nat.
Proof.
  intros Hlen Hc Hb.
  rewrite (output_write_transfers K device f buffer len h f_pos b rest
             ltac:(lia) Hc).
  rewrite load_char_is_one by exact Hb.
  cbn [fst snd]. rewrite to_ssize_t_small by lia.
  repeat split.
Qed.

Lemma output_write_first_byte_witness :
  fst (output_write dead_bus the_board (output_file 2) user_on 100 0 []) = 100
  /\ sends (snd (output_write dead_bus the_board (output_file 2) user_on 100 0 []))
     = [[if 0x31 =? 0x31 then 0x71 else 0x70;
         channel_of_name (output_file 2) mod 256]]
  /\ List.length (snd (output_write dead_bus the_board (output_file 2)
                         user_on 100 0 [])) = 1%nat.
Proof.
  apply (output_write_first_byte dead_bus the_board (output_file 2) user_on
           100 0 [] 0x31 [10]).
  - simpl. lia.
  - reflexivity.
  - lia.
Defined.

(** ** Decoding, on both kinds of platform *)

(** What line 191 computes from three bytes: the little-endian sum of the
    values the platform reads in them, modulo 2^32. *)
Lemma card_number_sum (s : bool) (b0 b1 b2 : byte) (rest : list byte) :
  card_number s (b0 :: b1 :: b2 :: rest)
  = (CInt.load_char s b0 + 256 * CInt.load_char s b1
     + 65536 * CInt.load_char s b2) mod 2 ^ 32.
Proof.
  unfold card_number, CInt.add_uint, CInt.shl_uint, CInt.to_uint. simpl nth.
  rewrite !Z.shiftl_mul_pow2 by lia.
  change (2 ^ 16) with 65536. change (2 ^ 8) with 256.
  change (2 ^ 32) with 4294967296.
  Z.div_mod_to_equations. lia.
Qed.

(** X13: where plain [char] is signed, three received bytes decode to their
    little-endian value exactly when all three are below 0x80; one byte of
    0x80 or more is enough to give another number. *)
Theorem card_number_signed_iff (b0 b1 b2 : byte) (rest : list byte) :
  0 <= b0 < 256 -> 0 <= b1 < 256 -> 0 <= b2 < 256 ->
  card_number true (b0 :: b1 :: b2 :: rest) = little_endian b0 b1 b2
  <-> b0 < 128 /\ b1 < 128 /\ b2 < 128.
Proof.
  intros H0 H1 H2. split.
  - rewrite card_number_sum. unfold little_endian, CInt.load_char.
    change (2 ^ 32) with 4294967296. cbn [andb].
    destruct (128 <=? b0) eqn:E0; destruct (128 <=? b1) eqn:E1;
      destruct (128 <=? b2) eqn:E2;
      rewrite ?Z.leb_le, ?Z.leb_gt in E0, E1, E2;
      intros Hc; Z.div_mod_to_equations; lia.
  - intros (L0 & L1 & L2). apply card_number_low_bytes; lia.
Qed.

Lemma card_number_signed_iff_witness :
  card_number true [1; 2; 3; 9; 9; 9; 9; 9] = little_endian 1 2 3
  <-> 1 < 128 /\ 2 < 128 /\ 3 < 128.
Proof.
  apply (card_number_signed_iff 1 2 3 [9; 9; 9; 9; 9]); lia.
Defined.

(** X14: where plain [char] is unsigned, decoding loses nothing and reads
    three bytes only: the number is below 2^24, its three little-endian
    bytes are the three bytes received, and the five bytes that follow in
    the response play no part. *)
Theorem card_number_unsigned_inverse (b0 b1 b2 : byte) (rest rest' : list byte) :
  0 <= b0 < 256 -> 0 <= b1 < 256 -> 0 <= b2 < 256 ->
  0 <= card_number false (b0 :: b1 :: b2 :: rest) < 2 ^ 24
  /\ card_bytes (card_number false (b0 :: b1 :: b2 :: rest)) = [b0; b1; b2]
  /\ card_number false (b0 :: b1 :: b2 :: rest)
     = card_number false (b0 :: b1 :: b2 :: rest').
Proof.
  intros H0 H1 H2.
  rewrite !card_number_little_endian by assumption.
  change (2 ^ 24) with 16777216. unfold card_bytes.
  split; [lia|]. split; [|reflexivity].
  repeat f_equal; Z.div_mod_to_equations; lia.
Qed.

Lemma card_number_unsigned_inverse_witness :
  0 <= card_number false [0x80; 0xff; 0x03; 1; 1; 1; 1; 1] < 2 ^ 24
  /\ card_bytes (card_number false [0x80; 0xff; 0x03; 1; 1; 1; 1; 1])
     = [0x80; 0xff; 0x03]
  /\ card_number false [0x80; 0xff; 0x03; 1; 1; 1; 1; 1]
     = card_number false [0x80; 0xff; 0x03; 2; 2; 2; 2; 2].
Proof.
  apply (card_number_unsigned_inverse 0x80 0xff 0x03 [1; 1; 1; 1; 1]
           [2; 2; 2; 2; 2]); lia.
Defined.

(** ** Names and channel numbers *)

(** X15: from device name to channel number.  For every index below 100,
    the last component of the name [add_output] (resp. [add_reader])
    registers is "s" (resp. "w") followed by the index, and the handlers
    read back from it the first digit of the index: the index itself below
    10, its tens digit from 10 on. *)
Theorem name_to_channel (c : i2c_client) (i : nat) :
  (i < 100)%nat ->
  (last_component (output_devname (board c) i) = d_name (output_file i)
   /\ channel_of_name (output_file i) = Z.of_nat (leading_digit i))
  /\ (last_component (reader_devname (board c) i) = d_name (reader_file i)
      /\ channel_of_name (reader_file i) = Z.of_nat (leading_digit i)).
Proof.
  intros Hi.
  assert (Hall :
    forallb (fun k =>
      String.eqb (last_component (output_devname (board c) k))
                 (d_name (output_file k))
      && (channel_of_name (output_file k) =? Z.of_nat (leading_digit k))
      && String.eqb (last_component (reader_devname (board c) k))
                    (d_name (reader_file k))
      && (channel_of_name (reader_file k) =? Z.of_nat (leading_digit k)))
      (seq 0 100) = true) by (vm_compute; reflexivity).
  rewrite forallb_forall in Hall.
  specialize (Hall i ltac:(apply in_seq; lia)).
  rewrite !andb_true_iff, !String.eqb_eq, !Z.eqb_eq in Hall.
  tauto.
Qed.

Lemma name_to_channel_witness :
  (last_component (output_devname (board the_client) 12) = d_name (output_file 12)
   /\ channel_of_name (output_file 12) = Z.of_nat (leading_digit 12))
  /\ (last_component (reader_devname (board the_client) 12)
      = d_name (reader_file 12)
      /\ channel_of_name (reader_file 12) = Z.of_nat (leading_digit 12)).
Proof.
  apply (name_to_channel the_client 12). lia.
Defined.

(** X16: no two channels share a query address.  The byte a state query
    sends tells the output, the byte a card query sends tells the reader,
    and no state query sends the byte of a card query. *)
Theorem query_addresses_distinct (K K' : kernel) (device device' : expansion_dev)
    (buffer buffer' : user_buffer) (count count' : Z) (response0 response0' : byte)
    (response8 response8' data0 data0' : list byte) (h h' : list event)
    (i i' j j' : nat) :
  (i < OUTPUTS_COUNT)%nat -> (i' < OUTPUTS_COUNT)%nat ->
  (j < READERS_COUNT)%nat -> (j' < READERS_COUNT)%nat ->
  (sends (snd (output_read K device (output_file i) buffer count 0 response0 h))
   = sends (snd (output_read K' device' (output_file i') buffer' count' 0
                   response0' h'))
   -> i = i')
  /\ (sends (snd (reader_read K device (reader_file j) buffer count 0
                    response8 data0 h))
      = sends (snd (reader_read K' device' (reader_file j') buffer' count' 0
                      response8' data0' h'))
      -> j = j')
  /\ sends (snd (output_read K device (output_file i) buffer count 0 response0 h))
     <> sends (snd (reader_read K' device' (reader_file j) buffer' count' 0
                      response8' data0' h')).
Proof.
  intros Hi Hi' Hj Hj'.
  destruct (output_read_transfers K device (output_file i) buffer count h response0)
    as (-> & _).
  destruct (output_read_transfers K' device' (output_file i') buffer' count' h'
              response0') as (-> & _).
  destruct (reader_read_transfers K device (reader_file j) buffer count h
              response8 data0) as (-> & _).
  destruct (reader_read_transfers K' device' (reader_file j') buffer' count' h'
              response8' data0') as (-> & _).
  destruct (reader_read_transfers K' device' (reader_file j) buffer' count' h'
              response8' data0') as (-> & _).
  rewrite !channel_of_output_file, !channel_of_reader_file by assumption.
  unfold OUTPUTS_COUNT, READERS_COUNT in *. unfold CInt.store_char.
  rewrite !Z.mod_small by (change (2 ^ 8) with 256; lia).
  assert (Hinj : forall x y : Z, [[x]] = [[y]] -> x = y)
    by (intros x y E; congruence).
  repeat split; intros E; apply Hinj in E; lia.
Qed.

Lemma query_addresses_distinct_witness :
  (sends (snd (output_read dead_bus the_board (output_file 1) user_on 64 0 0 []))
   = sends (snd (output_read (answering false [1]) the_board (output_file 2)
                   user_off 8 0 0 []))
   -> 1%nat = 2%nat)
  /\ (sends (snd (reader_read dead_bus the_board (reader_file 0) user_on 64 0
                    (repeat 0 8%nat) (repeat 0 12%nat) []))
      = sends (snd (reader_read (answering false [1]) the_board (reader_file 1)
                      user_off 8 0 (repeat 0 8%nat) (repeat 0 12%nat) []))
      -> 0%nat = 1%nat)
  /\ sends (snd (output_read dead_bus the_board (output_file 1) user_on 64 0 0 []))
     <> sends (snd (reader_read (answering false [1]) the_board (reader_file 0)
                      user_off 8 0 (repeat 0 8%nat) (repeat 0 12%nat) [])).
Proof.
  apply (query_addresses_distinct dead_bus (answering false [1]) the_board
           the_board user_on user_off 64 8 0 0 (repeat 0 8%nat) (repeat 0 8%nat)
           (repeat 0 12%nat) (repeat 0 12%nat) [] [] 1 2 0 1);
    unfold OUTPUTS_COUNT, READERS_COUNT; lia.
Defined.
